(** * EasyGoogleTranslate: a shallow embedding of [easygoogletranslate.py]

    The development follows the Python module: text is a sequence of code
    points, the UTF-8 codec and [urllib.parse.quote] are written out, the
    regular expression of [self.pattern] is a matcher, Python values carry
    their truthiness and their [str()], and the methods [make_request],
    [translate] and [translate_file] run in a monad over a world that holds
    the network, the file system, the translator instance and the trace of
    what the process did. *)

From Stdlib Require Import ZArith NArith Ascii String List Permutation Lia.
From stdpp Require Import base option list gmap.

Open Scope N_scope.

(** ** Text: Python [str] as a list of code points *)

Abbreviation pystr := (list N).
Abbreviation pybytes := (list N).

Module Text.

(** A string literal of the source, one code point per character. *)
Definition lit (s : string) : pystr :=
  List.map N_of_ascii (list_ascii_of_string s).

Definition digit_of (d : N) : N := 48 + d.

Fixpoint uint_digits (u : Decimal.uint) : pystr :=
  match u with
  | Decimal.Nil => []
  | Decimal.D0 r => digit_of 0 :: uint_digits r
  | Decimal.D1 r => digit_of 1 :: uint_digits r
  | Decimal.D2 r => digit_of 2 :: uint_digits r
  | Decimal.D3 r => digit_of 3 :: uint_digits r
  | Decimal.D4 r => digit_of 4 :: uint_digits r
  | Decimal.D5 r => digit_of 5 :: uint_digits r
  | Decimal.D6 r => digit_of 6 :: uint_digits r
  | Decimal.D7 r => digit_of 7 :: uint_digits r
  | Decimal.D8 r => digit_of 8 :: uint_digits r
  | Decimal.D9 r => digit_of 9 :: uint_digits r
  end.

(** [str(n)] of a non-negative [int]. *)
Definition decimal (n : N) : pystr := uint_digits (N.to_uint n).

(** [str(z)] of an [int]. *)
Definition decimal_Z (z : Z) : pystr :=
  match z with
  | Zneg p => 45 :: decimal (Npos p)
  | _ => decimal (Z.to_N z)
  end.

(** [sep.join(parts)]. *)
Fixpoint join (sep : pystr) (parts : list pystr) : pystr :=
  match parts with
  | [] => []
  | [p] => p
  | p :: rest => p ++ sep ++ join sep rest
  end.

(** [len(s)]. *)
Definition len (s : pystr) : N := N.of_nat (length s).

Definition quote_char : N := 34.     (* the double quote *)
Definition lt_char : N := 60.        (* < *)
Definition gt_char : N := 62.        (* > *)
Definition newline : N := 10.

End Text.

(** ** The UTF-8 codec: [str.encode('utf8')] and [bytes.decode('utf8')] *)

Module Utf8.

Definition is_surrogate (c : N) : bool := (0xD800 <=? c) && (c <=? 0xDFFF).

(** A code point that has a UTF-8 encoding: below 0x110000 and not a
    surrogate. A Python [str] may hold any code point below 0x110000. *)
Definition is_scalar (c : N) : bool := (c <? 0x110000) && negb (is_surrogate c).

(** The strict encoder: [None] stands for [UnicodeEncodeError]. *)
Definition encode_cp (c : N) : option pybytes :=
  if c <? 0x80 then Some [c]
  else if c <? 0x800 then Some [0xC0 + c / 64; 0x80 + c mod 64]
  else if c <? 0x10000 then
    if is_surrogate c then None
    else Some [0xE0 + c / 4096; 0x80 + (c / 64) mod 64; 0x80 + c mod 64]
  else if c <? 0x110000 then
    Some [0xF0 + c / 262144; 0x80 + (c / 4096) mod 64;
          0x80 + (c / 64) mod 64; 0x80 + c mod 64]
  else None.

Fixpoint encode (s : pystr) : option pybytes :=
  match s with
  | [] => Some []
  | c :: s' =>
      match encode_cp c, encode s' with
      | Some b, Some bs => Some (b ++ bs)
      | _, _ => None
      end
  end.

(** Text all of whose code points can be encoded. *)
Definition well_formed (s : pystr) : Prop := Forall (λ c, is_scalar c = true) s.

Definition is_cont (b : N) : bool := (0x80 <=? b) && (b <? 0xC0).

(** The strict decoder: [None] stands for [UnicodeDecodeError]. It
    refuses truncated and overlong sequences, surrogates and values from
    0x110000 on. *)
Fixpoint decode (bs : pybytes) : option pystr :=
  match bs with
  | [] => Some []
  | b0 :: r0 =>
      if b0 <? 0x80 then cons b0 <$> decode r0
      else if b0 <? 0xC2 then None
      else if b0 <? 0xE0 then
        match r0 with
        | b1 :: r1 =>
            if is_cont b1
            then cons ((b0 - 0xC0) * 64 + (b1 - 0x80)) <$> decode r1
            else None
        | _ => None
        end
      else if b0 <? 0xF0 then
        match r0 with
        | b1 :: b2 :: r2 =>
            let c := (b0 - 0xE0) * 4096 + (b1 - 0x80) * 64 + (b2 - 0x80) in
            if is_cont b1 && is_cont b2 && (0x800 <=? c) && negb (is_surrogate c)
            then cons c <$> decode r2
            else None
        | _ => None
        end
      else if b0 <? 0xF5 then
        match r0 with
        | b1 :: b2 :: b3 :: r3 =>
            let c := (b0 - 0xF0) * 262144 + (b1 - 0x80) * 4096
                     + (b2 - 0x80) * 64 + (b3 - 0x80) in
            if is_cont b1 && is_cont b2 && is_cont b3
               && (0x10000 <=? c) && (c <? 0x110000)
            then cons c <$> decode r3
            else None
        | _ => None
        end
      else None
  end.

(** Text mode with [newline=None]: on reading, [\r\n] and a lone [\r]
    become [\n]. *)
Fixpoint universal_newlines (s : pystr) : pystr :=
  match s with
  | [] => []
  | c :: r =>
      if c =? 13 then
        10 :: match r with
              | c2 :: r2 => if c2 =? 10 then universal_newlines r2
                            else universal_newlines r
              | [] => []
              end
      else c :: universal_newlines r
  end.

End Utf8.

(** ** [urllib.parse.quote] on bytes, with its default [safe='/'] *)

Module Url.

(** [_ALWAYS_SAFE]: ASCII letters, digits and [_.-~]. *)
Definition always_safe (b : N) : bool :=
  ((65 <=? b) && (b <=? 90)) || ((97 <=? b) && (b <=? 122))
  || ((48 <=? b) && (b <=? 57))
  || (b =? 95) || (b =? 46) || (b =? 45) || (b =? 126).

(** [_ALWAYS_SAFE.union(safe)] for [safe = b'/']. *)
Definition is_safe (b : N) : bool := always_safe b || (b =? 47).

(** One digit of ['{:02X}']. *)
Definition hex_upper (d : N) : N := if d <? 10 then 48 + d else 55 + d.

(** [_Quoter.__missing__]: [chr(b)] for a safe byte, else [%XX]. *)
Definition quoter (b : N) : pystr :=
  if is_safe b then [b] else [37; hex_upper (b / 16); hex_upper (b mod 16)].

(** [quote_from_bytes(bs, safe='/')], fast paths included. *)
Definition quote_from_bytes (bs : pybytes) : pystr :=
  match bs with
  | [] => []
  | _ => if forallb is_safe bs then bs else flat_map quoter bs
  end.

(** [quote(string)] for a [bytes] argument. *)
Definition quote (bs : pybytes) : pystr := quote_from_bytes bs.

Definition hex_value (c : N) : option N :=
  if (48 <=? c) && (c <=? 57) then Some (c - 48)
  else if (65 <=? c) && (c <=? 70) then Some (c - 55)
  else if (97 <=? c) && (c <=? 102) then Some (c - 87)
  else None.

(** Percent-decoding as RFC 3986 defines it (the reading side of the
    [q=] field): [%XX] is the byte XX, any other character stands for
    itself. It is the specification [quote] is compared with. *)
Fixpoint percent_decode (s : pystr) : option pybytes :=
  match s with
  | [] => Some []
  | c :: r =>
      if c =? 37 then
        match r with
        | h :: l :: r' =>
            match hex_value h, hex_value l with
            | Some x, Some y => cons (16 * x + y) <$> percent_decode r'
            | _, _ => None
            end
        | _ => None
        end
      else cons c <$> percent_decode r
  end.

(** The characters [quote] may produce: safe ones, [%] and hex digits. *)
Definition url_char (c : N) : bool :=
  is_safe c || (c =? 37).

End Url.

(** ** The regular expression of [self.pattern]

    [(?s)class="(?:t0|result-container)">(.*?)<] is assigned once, in
    [__init__], and only read afterwards, so it is a constant of the model
    and [re.findall] is written out for it. *)

Module Pattern.

Definition class_attr : pystr := Text.lit "class=" ++ [Text.quote_char].
Definition marker_t0 : pystr := Text.lit "t0".
Definition marker_result_container : pystr := Text.lit "result-container".
Definition tag_close : pystr := [Text.quote_char; Text.gt_char].

(** The two literal openings the pattern accepts, [class="t0">] and
    [class="result-container">]. *)
Definition opening_t0 : pystr := class_attr ++ marker_t0 ++ tag_close.
Definition opening_result_container : pystr :=
  class_attr ++ marker_result_container ++ tag_close.

(** A literal at the start of [s]: what is left of [s] after it. *)
Fixpoint strip_prefix (p s : pystr) : option pystr :=
  match p, s with
  | [], _ => Some s
  | a :: p', b :: s' => if a =? b then strip_prefix p' s' else None
  | _ :: _, [] => None
  end.

(** [(.*?)<] under [(?s)]: the shortest run of any characters, line
    breaks included, that is followed by [<]; the run and the rest after
    the [<]. *)
Fixpoint lazy_until_lt (s : pystr) : option (pystr * pystr) :=
  match s with
  | [] => None
  | c :: s' =>
      if c =? Text.lt_char then Some ([], s')
      else match lazy_until_lt s' with
           | Some (cap, rest) => Some (c :: cap, rest)
           | None => None
           end
  end.

(** One branch of [(?:t0|result-container)] followed by the rest of the
    pattern. *)
Definition alternative (name s : pystr) : option (pystr * pystr) :=
  s2 ← strip_prefix name s;
  s3 ← strip_prefix tag_close s2;
  lazy_until_lt s3.

(** A match of the whole pattern that starts at the head of [s]: group 1
    and the text after the match. The branches are tried in the order
    they are written. *)
Definition match_at (s : pystr) : option (pystr * pystr) :=
  s1 ← strip_prefix class_attr s;
  match alternative marker_t0 s1 with
  | Some m => Some m
  | None => alternative marker_result_container s1
  end.

(** The scan of [re.findall]: leftmost match first, then on from the end
    of that match; one step forward where nothing matches. *)
Fixpoint findall_fuel (fuel : nat) (s : pystr) : list pystr :=
  match fuel with
  | O => []
  | S fuel' =>
      match match_at s with
      | Some (cap, rest) => cap :: findall_fuel fuel' rest
      | None =>
          match s with
          | [] => []
          | _ :: s' => findall_fuel fuel' s'
          end
      end
  end.

(** [re.findall(self.pattern, s)]: the list of group 1 of every match. *)
Definition findall (s : pystr) : list pystr := findall_fuel (S (length s)) s.

(** What it means for the pattern to match inside [body]: [body] is
    [pre], one of the two openings, a run [cap] without [<], a [<], and
    [rest]. *)
Definition is_opening (mk : pystr) : Prop :=
  mk = opening_t0 ∨ mk = opening_result_container.

Definition occurs (body pre mk cap rest : pystr) : Prop :=
  body = pre ++ mk ++ cap ++ Text.lt_char :: rest
  ∧ is_opening mk ∧ Text.lt_char ∉ cap.

Definition matches (body : pystr) : Prop :=
  ∃ pre mk cap rest, occurs body pre mk cap rest.

(** The first match: no match starts further left. *)
Definition first_occurrence (body pre mk cap rest : pystr) : Prop :=
  occurs body pre mk cap rest
  ∧ ∀ pre' mk' cap' rest',
      occurs body pre' mk' cap' rest' → (length pre ≤ length pre')%nat.

End Pattern.

(** ** [html.unescape]

    The decoder of CPython's [html] module, which the program calls on the
    captured text. The table of the 2231 HTML5 named references
    ([html.entities.html5]) is a parameter. Numbers are unbounded, as
    Python's [int] is, but [int] refuses a decimal string of more digits
    than [sys.int_max_str_digits] (CPython 3.11): [html.unescape] then
    raises [ValueError], which is [None] here. *)

Module Html.

Definition is_digit (c : N) : bool := (48 <=? c) && (c <=? 57).
Definition is_hexdigit (c : N) : bool :=
  is_digit c || ((65 <=? c) && (c <=? 70)) || ((97 <=? c) && (c <=? 102)).

(** [[^\t\n\f <&#;]]. *)
Definition is_name_char (c : N) : bool :=
  negb ((c =? 9) || (c =? 10) || (c =? 12) || (c =? 32)
        || (c =? 60) || (c =? 38) || (c =? 35) || (c =? 59)).

(** A greedy run of at most [n] characters that satisfy [p]. *)
Fixpoint span_upto (n : nat) (p : N → bool) (s : pystr) : pystr * pystr :=
  match n, s with
  | S n', c :: r =>
      if p c then let '(run, rest) := span_upto n' p r in (c :: run, rest)
      else ([], s)
  | _, _ => ([], s)
  end.

Definition span (p : N → bool) (s : pystr) : pystr * pystr :=
  span_upto (length s) p s.

(** [;?]. *)
Definition opt_semicolon (s : pystr) : pystr * pystr :=
  match s with
  | c :: r => if c =? 59 then ([59], r) else ([], s)
  | [] => ([], s)
  end.

(** [_charref] after the [&]:
    [#[0-9]+;?|#[xX][0-9a-fA-F]+;?|[^\t\n\f <&#;]{1,32};?];
    group 1 and the text after the match. *)
Definition charref_at (r : pystr) : option (pystr * pystr) :=
  match r with
  | [] => None
  | c :: r1 =>
      if c =? 35 then
        match span is_digit r1 with
        | (d :: ds, r2) =>
            let '(semi, r3) := opt_semicolon r2 in
            Some (c :: d :: ds ++ semi, r3)
        | ([], _) =>
            match r1 with
            | x :: r2 =>
                if (x =? 120) || (x =? 88) then
                  match span is_hexdigit r2 with
                  | (h :: hs, r3) =>
                      let '(semi, r4) := opt_semicolon r3 in
                      Some (c :: x :: h :: hs ++ semi, r4)
                  | ([], _) => None
                  end
                else None
            | [] => None
            end
        end
      else
        match span_upto 32 is_name_char r with
        | (n :: ns, r1') =>
            let '(semi, r2) := opt_semicolon r1' in
            Some (n :: ns ++ semi, r2)
        | ([], _) => None
        end
  end.

Definition digit_value (c : N) : N :=
  if is_digit c then c - 48
  else if (65 <=? c) && (c <=? 70) then c - 55
  else c - 87.

(** [int(digits, base)]. *)
Definition parse_int (base : N) (digits : pystr) : N :=
  fold_left (λ acc c, acc * base + digit_value c) digits 0.

(** [sys.int_max_str_digits], as CPython 3.11 sets it. *)
Definition int_max_str_digits : nat := 4300.

(** [int(digits)] in base ten: [None] stands for the [ValueError] that a
    string of more digits than the limit gets, leading zeros counted. A
    base that is a power of two has no limit. *)
Definition parse_decimal (digits : pystr) : option N :=
  if (int_max_str_digits <? length digits)%nat then None
  else Some (parse_int 10 digits).

(** [s.rstrip(';')]. *)
Definition rstrip_semicolon (s : pystr) : pystr :=
  rev (snd (span (λ c, c =? 59) (rev s))).

(** [_invalid_charrefs]: the Windows-1252 readings of 0x80..0x9F, and
    0 and 13. *)
Definition invalid_charrefs : list (N * pystr) :=
  [(0, [65533]); (13, [13]); (128, [8364]); (129, [129]); (130, [8218]);
   (131, [402]); (132, [8222]); (133, [8230]); (134, [8224]); (135, [8225]);
   (136, [710]); (137, [8240]); (138, [352]); (139, [8249]); (140, [338]);
   (141, [141]); (142, [381]); (143, [143]); (144, [144]); (145, [8216]);
   (146, [8217]); (147, [8220]); (148, [8221]); (149, [8226]); (150, [8211]);
   (151, [8212]); (152, [732]); (153, [8482]); (154, [353]); (155, [8250]);
   (156, [339]); (157, [157]); (158, [382]); (159, [376])].

Fixpoint assoc {V} (k : N) (t : list (N * V)) : option V :=
  match t with
  | [] => None
  | (k', v) :: t' => if k =? k' then Some v else assoc k t'
  end.

(** [_invalid_codepoints]. *)
Definition invalid_codepoint (n : N) : bool :=
  ((1 <=? n) && (n <=? 8)) || (n =? 11) || ((14 <=? n) && (n <=? 31))
  || ((127 <=? n) && (n <=? 159)) || ((0xFDD0 <=? n) && (n <=? 0xFDEF))
  || ((n <=? 0x10FFFF) && (0xFFFE <=? n mod 0x10000)).

Section WithTable.

Variable html5 : pystr → option pystr.

(** The loop [for x in range(len(s)-1, 1, -1)] of the named case: the
    longest proper prefix of [s] of two characters or more that is in
    the table; [&s] when there is none. *)
Fixpoint longest_prefix (x : nat) (s : pystr) : pystr :=
  match x with
  | S (S _ as x') =>
      match html5 (take x s) with
      | Some v => v ++ drop x s
      | None => longest_prefix x' s
      end
  | _ => 38 :: s
  end.

(** [_replace_charref] on group 1 of a match. *)
Definition replace_charref (s : pystr) : option pystr :=
  match s with
  | c :: s1 =>
      if c =? 35 then
        num ← match s1 with
              | x :: s2 =>
                  if (x =? 120) || (x =? 88)
                  then Some (parse_int 16 (rstrip_semicolon s2))
                  else parse_decimal (rstrip_semicolon s1)
              | [] => Some 0
              end;
        match assoc num invalid_charrefs with
        | Some v => Some v
        | None =>
            if ((0xD800 <=? num) && (num <=? 0xDFFF)) || (0x10FFFF <? num)
            then Some [0xFFFD]
            else if invalid_codepoint num then Some []
            else Some [num]
        end
      else
        match html5 s with
        | Some v => Some v
        | None => Some (longest_prefix (length s - 1) s)
        end
  | [] => Some []
  end.

(** [_charref.sub(_replace_charref, s)]: the matches are replaced from
    left to right, and a replacement that raises ends the call. *)
Fixpoint sub_fuel (fuel : nat) (s : pystr) : option pystr :=
  match s with
  | [] => Some []
  | c :: r =>
      match fuel with
      | O => Some s
      | S fuel' =>
          if c =? 38 then
            match charref_at r with
            | Some (group, rest) =>
                out ← replace_charref group;
                app out <$> sub_fuel fuel' rest
            | None => cons c <$> sub_fuel fuel' r
            end
          else cons c <$> sub_fuel fuel' r
      end
  end.

Definition unescape (s : pystr) : option pystr :=
  if existsb (λ c, c =? 38) s then sub_fuel (length s) s else Some s.

End WithTable.

(** A few rows of [html.entities.html5], enough for the examples. *)
Definition html5_sample : list (pystr * pystr) :=
  [(Text.lit "amp;", [38]); (Text.lit "amp", [38]);
   (Text.lit "lt;", [60]); (Text.lit "lt", [60]);
   (Text.lit "gt;", [62]); (Text.lit "gt", [62]);
   (Text.lit "quot;", [34]); (Text.lit "quot", [34]);
   (Text.lit "apos;", [39]); (Text.lit "nbsp;", [160]); (Text.lit "nbsp", [160])].

Definition lookup_sample (k : pystr) : option pystr :=
  snd <$> List.find (λ kv, bool_decide (fst kv = k)) html5_sample.

End Html.

(** ** Python values: what a parameter of [translate] may hold

    [None], booleans, integers, strings, lists, tuples and mappings;
    floats and objects of other classes are left out. *)

#[local] Unset Elimination Schemes.
Inductive pyval : Type :=
  | PyNone
  | PyBool (b : bool)
  | PyInt (z : Z)
  | PyStr (s : pystr)
  | PyList (items : list pyval)
  | PyTuple (items : list pyval)
  | PyDict (items : list (pyval * pyval)).
#[local] Set Elimination Schemes.

Module Py.

(** Truth value testing, as [or] and [not] apply it. *)
Definition truthy (v : pyval) : bool :=
  match v with
  | PyNone => false
  | PyBool b => b
  | PyInt z => negb (z =? 0)%Z
  | PyStr s => negb (bool_decide (s = []))
  | PyList l => match l with [] => false | _ => true end
  | PyTuple l => match l with [] => false | _ => true end
  | PyDict d => match d with [] => false | _ => true end
  end.

(** [a or b]. *)
Definition or (a b : pyval) : pyval := if truthy a then a else b.

(** [isinstance(v, list)]. *)
Definition is_list (v : pyval) : bool :=
  match v with PyList _ => true | _ => false end.

Section WithRepr.

(** [repr] of a [str] consults the Unicode character database to tell
    printable characters; it is a parameter. *)
Variable str_repr : pystr → pystr.

Fixpoint repr (v : pyval) : pystr :=
  match v with
  | PyNone => Text.lit "None"
  | PyBool b => if b then Text.lit "True" else Text.lit "False"
  | PyInt z => Text.decimal_Z z
  | PyStr s => str_repr s
  | PyList l => Text.lit "[" ++ Text.join (Text.lit ", ") (List.map repr l) ++ Text.lit "]"
  | PyTuple l =>
      match l with
      | [x] => Text.lit "(" ++ repr x ++ Text.lit ",)"
      | _ => Text.lit "(" ++ Text.join (Text.lit ", ") (List.map repr l) ++ Text.lit ")"
      end
  | PyDict d =>
      Text.lit "{"
      ++ Text.join (Text.lit ", ")
           (List.map (λ kv, let '(k, x) := kv in repr k ++ Text.lit ": " ++ repr x) d)
      ++ Text.lit "}"
  end.

(** [str(v)]. *)
Definition str (v : pyval) : pystr :=
  match v with
  | PyStr s => s
  | _ => repr v
  end.

(** A replacement field [{v}] of an f-string: [format(v, '')], which
    is [str(v)] for the values of this model. *)
Definition format (v : pyval) : pystr := str v.

End WithRepr.

(** [repr] of a [str] of ASCII letters, digits and spaces: the text in
    single quotes. *)
Definition plain_repr (s : pystr) : pystr := 39 :: s ++ [39].

End Py.

(** ** The process: outcomes, the world, and the monad the methods run in *)

(** How a call ends: it returns, or [exit(code)] raises [SystemExit] and
    the process terminates, or another exception leaves the call. *)
Inductive outcome (A : Type) : Type :=
  | Returned (a : A)
  | Exited (code : Z)
  | Raised (exn : pystr).
Arguments Returned {A} a.
Arguments Exited {A} code.
Arguments Raised {A} exn.

(** [requests.get(url, timeout=timeout, proxies=proxies)]. *)
Record request : Type := Request {
  req_url : pystr;
  req_timeout : pyval;
  req_proxies : pyval
}.

Record response : Type := Response {
  status_code : Z;
  reason : pystr;
  resp_url : pystr;
  resp_text : pystr           (* [response.text] *)
}.

(** What [requests.get] does: it returns a response, or raises a
    [RequestException] (timeout, DNS failure, refused connection, proxy
    failure, ...) whose [str()] is [msg], or raises something else (a
    [ValueError] for a timeout it cannot use, ...). *)
Inductive http_result : Type :=
  | GetResponse (r : response)
  | GetRequestException (msg : pystr)
  | GetOtherError (exn : pystr).

(** What the process does that can be seen from outside. *)
Inductive event : Type :=
  | EvPrint (msg : pystr)                       (* [print(msg)] *)
  | EvGet (r : request)                         (* a call of [requests.get] *)
  | EvRead (path : pystr)                       (* a file opened and read *)
  | EvWrite (path : pystr) (content : pybytes). (* a file written *)

Module EasyGoogleTranslate.

(** The attributes [__init__] stores. *)
Record t : Type := Build {
  source_language : pyval;
  target_language : pyval;
  timeout : pyval;
  proxies : pyval
}.

(** [__init__(self, source_language='auto', target_language='tr',
    timeout=5, proxies=None)]; an argument left out is [None] here. *)
Definition __init__ (source_language target_language timeout proxies : option pyval) : t :=
  {| source_language := default (PyStr (Text.lit "auto")) source_language;
     target_language := default (PyStr (Text.lit "tr")) target_language;
     timeout := default (PyInt 5) timeout;
     proxies := default PyNone proxies |}.

End EasyGoogleTranslate.

(** The world: the network as [requests.get] answers, the regular files
    by path with their bytes (a path that is missing or names a directory
    has no entry), the translator instance, and the trace. *)
Record world : Type := World {
  net : request → http_result;
  fs : gmap pystr pybytes;
  self : EasyGoogleTranslate.t;
  trace : list event
}.

Module Proc.

Definition M (A : Type) : Type := world → outcome A * world.

Definition ret {A} (a : A) : M A := λ w, (Returned a, w).

Definition bind {A B} (m : M A) (k : A → M B) : M B :=
  λ w, match m w with
       | (Returned a, w') => k a w'
       | (Exited c, w') => (Exited c, w')
       | (Raised e, w') => (Raised e, w')
       end.

#[global] Instance M_ret : MRet M := @ret.
#[global] Instance M_bind : MBind M := λ A B k m, bind m k.
#[global] Instance M_fmap : FMap M := λ A B f m, bind m (λ a, ret (f a)).

Definition log (e : event) (w : world) : world :=
  {| net := net w; fs := fs w; self := self w; trace := trace w ++ [e] |}.

Definition store (path : pystr) (content : pybytes) (w : world) : world :=
  {| net := net w; fs := <[path := content]> (fs w); self := self w;
     trace := trace w |}.

Definition emit (e : event) : M unit := λ w, (Returned tt, log e w).

(** [print(msg)]. *)
Definition print (msg : pystr) : M unit := emit (EvPrint msg).

(** [exit(code)]: [SystemExit], which no handler of the module catches. *)
Definition exit {A} (code : Z) : M A := λ w, (Exited code, w).

Definition raise {A} (exn : pystr) : M A := λ w, (Raised exn, w).

(** [self]. *)
Definition get_self : M EasyGoogleTranslate.t := λ w, (Returned (self w), w).

(** [requests.get]: the call is recorded, the network answers. The
    exceptions it raises are handed to the caller as values, for the
    [try] of [make_request] to sort. What [requests] does to the mapping
    of proxies it is handed (it adds the proxies of the environment to
    it) is left out. *)
Definition requests_get (r : request) : M http_result :=
  λ w, (Returned (net w r), log (EvGet r) w).

(** [s.encode('utf8')]. *)
Definition str_encode (s : pystr) : M pybytes :=
  match Utf8.encode s with
  | Some bs => ret bs
  | None => raise (Text.lit "UnicodeEncodeError")
  end.

(** [bs.decode('utf8')]. *)
Definition bytes_decode (bs : pybytes) : M pystr :=
  match Utf8.decode bs with
  | Some s => ret s
  | None => raise (Text.lit "UnicodeDecodeError")
  end.

(** [os.path.isfile(path)]. *)
Definition os_path_isfile (path : pystr) : M bool :=
  λ w, (Returned (bool_decide (is_Some (fs w !! path))), w).

(** [with open(path, 'r', encoding='utf-8') as f: f.read()]. *)
Definition read_text (path : pystr) : M pystr :=
  emit (EvRead path);;
  found ← (λ w, (Returned (fs w !! path), w)) : M (option pybytes);
  match found with
  | None => raise (Text.lit "FileNotFoundError")
  | Some bs => s ← bytes_decode bs; mret (Utf8.universal_newlines s)
  end.

(** [with open(path, 'w', encoding='utf-8') as f: f.write(text)], where
    the directory can be written to and a line break is written as it
    is (POSIX): opening empties the file, writing stores the encoding
    of the text. *)
Definition write_text (path : pystr) (text : pystr) : M unit :=
  ((λ w, (Returned tt, store path [] w)) : M unit);;
  bs ← str_encode text;
  ((λ w, (Returned tt, store path bs w)) : M unit);;
  emit (EvWrite path bs).

(** A task of the pool: whatever ends it is kept in its future. *)
Definition run_future {A} (task : M A) : M (outcome A) :=
  λ w, let '(o, w') := task w in (Returned o, w').

(** [future.result()]: the value, or the exception raised again. *)
Definition result {A} (o : outcome A) : M A := λ w, (o, w).

Fixpoint sequence {A} (ms : list (M A)) : M (list A) :=
  match ms with
  | [] => ret []
  | m :: rest => a ← m; r ← sequence rest; mret (a :: r)
  end.

(** Taking [result()] of the futures in turn: the values when every
    task returned, else what ended the first one that did not. *)
Fixpoint results_of {A} (l : list (outcome A)) : outcome (list A) :=
  match l with
  | [] => Returned []
  | Returned a :: r =>
      match results_of r with
      | Returned x => Returned (a :: x)
      | Exited c => Exited c
      | Raised e => Raised e
      end
  | Exited c :: _ => Exited c
  | Raised e :: _ => Raised e
  end.

Definition is_returned {A} (o : outcome A) : bool :=
  match o with Returned _ => true | _ => false end.

(** The calls of [requests.get] in a trace, in order. *)
Definition requests_in (t : list event) : list request :=
  omap (λ e, match e with EvGet r => Some r | _ => None end) t.

End Proc.

(** The services of the Python runtime and library the module relies on
    and the source does not contain. The threads of the pool are taken to
    act on the world one task after the other, in an order the scheduler
    chooses; [as_completed] yields the futures in an order of its own
    (those already finished when the iteration starts come first, as a set
    holds them, the others as they finish). Both orders are free, up to
    being orders of the same futures. *)
Record runtime : Type := Runtime {
  (** [html.unescape]; [None] where it raises [ValueError] *)
  html_unescape : pystr → option pystr;
  (** [repr] of a [str] *)
  str_repr : pystr → pystr;
  (** the order in which the pool's threads get the submitted tasks done *)
  run_order : list (nat * pyval) → list (nat * pyval);
  (** the order in which [concurrent.futures.as_completed] yields *)
  as_completed : list (nat * outcome pystr) → list (nat * outcome pystr);
  run_order_perm : ∀ l, run_order l ≡ₚ l;
  as_completed_perm : ∀ l, as_completed l ≡ₚ l
}.

(** ** The methods of [EasyGoogleTranslate] *)

Section Methods.

Context (rt : runtime).

Definition error_prefix : pystr := Text.newline :: Text.lit "Error: ".

(** [response.raise_for_status()]: the message of the [HTTPError] it
    raises, for a status from 400 to 599. *)
Definition raise_for_status (r : response) : option pystr :=
  if ((400 <=? status_code r) && (status_code r <? 500))%Z then
    Some (Text.decimal_Z (status_code r) ++ Text.lit " Client Error: "
          ++ reason r ++ Text.lit " for url: " ++ resp_url r)
  else if ((500 <=? status_code r) && (status_code r <? 600))%Z then
    Some (Text.decimal_Z (status_code r) ++ Text.lit " Server Error: "
          ++ reason r ++ Text.lit " for url: " ++ resp_url r)
  else None.

(** The f-string of line 95. *)
Definition format_url (target_language source_language : pyval) (escaped_text : pystr) : pystr :=
  Text.lit "https://translate.google.com/m?tl=" ++ Py.format (str_repr rt) target_language
  ++ Text.lit "&sl=" ++ Py.format (str_repr rt) source_language
  ++ Text.lit "&q=" ++ escaped_text.

(** The request [make_request] sends for a text whose encoding is [bs]. *)
Definition request_of (target_language source_language : pyval) (bs : pybytes)
    (timeout proxies : pyval) : request :=
  Request (format_url target_language source_language (Url.quote bs)) timeout proxies.

(** A request that fails: [requests.get] raises a [RequestException], or
    the status makes [raise_for_status] raise one; [e] is its message. *)
Definition request_fails (got : http_result) (e : pystr) : Prop :=
  got = GetRequestException e
  ∨ ∃ r, got = GetResponse r ∧ raise_for_status r = Some e.

Definition unknown_error : pystr := Text.newline :: Text.lit "Error: Unknown error.".
Definition error_txt : pystr := Text.lit "error.txt".

(** [make_request(self, target_language, source_language, text, timeout,
    proxies)]. The [except] clause takes the [RequestException] of
    [requests.get] and of [raise_for_status]; [SystemExit], the Unicode
    errors and the [ValueError] of [html.unescape] pass it. *)
Definition make_request (target_language source_language : pyval) (text : pystr)
    (timeout proxies : pyval) : Proc.M pystr :=
  bs ← Proc.str_encode text;
  let escaped_text := Url.quote bs in
  let url := format_url target_language source_language escaped_text in
  got ← Proc.requests_get (Request url timeout proxies);
  match got with
  | GetRequestException e => Proc.print (error_prefix ++ e);; Proc.exit 1
  | GetOtherError exn => Proc.raise exn
  | GetResponse response =>
      match raise_for_status response with
      | Some e => Proc.print (error_prefix ++ e);; Proc.exit 1
      | None =>
          encoded ← Proc.str_encode (resp_text response);
          result ← Proc.bytes_decode encoded;
          match Pattern.findall result with
          | [] =>
              Proc.print unknown_error;;
              Proc.write_text error_txt (resp_text response);;
              Proc.exit 1
          | first :: _ =>
              match html_unescape rt first with
              | Some translation => mret translation
              | None => Proc.raise (Text.lit "ValueError")
              end
          end
      end
  end.

(** [executor.submit(self.make_request, target, source_language, text,
    timeout, proxies)], run by a thread of the pool: the future, numbered
    as submitted, with what ended the call. *)
Definition run_task (source_language : pyval) (text : pystr) (timeout proxies : pyval)
    (f : nat * pyval) : Proc.M (nat * outcome pystr) :=
  o ← Proc.run_future (make_request f.2 source_language text timeout proxies);
  mret (f.1, o).

(** Lines 132 to 137: one task per target, all run by the pool, and the
    results taken as [as_completed] yields the futures. Leaving the
    [with] block waits for every task, also when a [result()] raises. *)
Definition fan_out (targets : list pyval) (source_language : pyval) (text : pystr)
    (timeout proxies : pyval) : Proc.M pyval :=
  let futures := zip (seq 0 (length targets)) targets in
  done ← Proc.sequence
           (List.map (run_task source_language text timeout proxies)
                     (run_order rt futures));
  results ← Proc.sequence
              (List.map (λ f : nat * outcome pystr, Proc.result f.2)
                        (as_completed rt done));
  mret (PyList (PyStr <$> results)).

(** Lines 131 to 139, with the parameters resolved. *)
Definition dispatch (text : pystr) (target_language source_language timeout proxies : pyval)
    : Proc.M pyval :=
  match target_language with
  | PyList targets => fan_out targets source_language text timeout proxies
  | _ => PyStr <$> make_request target_language source_language text timeout proxies
  end.

Definition too_long (text : pystr) : pystr :=
  error_prefix ++ Text.lit "It can only detect 5000 characters at once. ("
  ++ Text.decimal (Text.len text) ++ Text.lit " characters found.)".

(** [translate(self, text, target_language=None, source_language=None,
    timeout=None, proxies=None)]. *)
Definition translate (text : pystr) (target_language source_language timeout proxies : pyval)
    : Proc.M pyval :=
  self ← Proc.get_self;
  let target_language := Py.or target_language (EasyGoogleTranslate.target_language self) in
  let source_language := Py.or source_language (EasyGoogleTranslate.source_language self) in
  let timeout := Py.or timeout (EasyGoogleTranslate.timeout self) in
  let proxies := Py.or proxies (EasyGoogleTranslate.proxies self) in
  if 5000 <? Text.len text then
    Proc.print (too_long text);; Proc.exit 1
  else dispatch text target_language source_language timeout proxies.

Definition bad_path : pystr :=
  Text.newline :: Text.lit "Error: The file or path is incorrect.".

(** [translate_file(self, file_path, target_language=None,
    source_language=None, timeout=None, proxies=None)]. *)
Definition translate_file (file_path : pystr)
    (target_language source_language timeout proxies : pyval) : Proc.M pyval :=
  is_file ← Proc.os_path_isfile file_path;
  if negb is_file then
    Proc.print bad_path;; Proc.exit 1
  else
    text ← Proc.read_text file_path;
    translate text target_language source_language timeout proxies.

(** The precedence of a parameter: the argument of the call when it is
    truthy, else what the constructor was given, else the default written
    in the signature of [__init__]. *)
Definition resolved (arg : pyval) (given : option pyval) (hardcoded : pyval) : pyval :=
  if Py.truthy arg then arg else default hardcoded given.

End Methods.

(** ** Sample data: a runtime, pages and worlds to run the methods on *)

Module Sample.

(** [html.unescape] over the sample rows, [repr] for plain words, tasks
    done in the order submitted and yielded last first. *)
Definition rt : runtime :=
  {| html_unescape := Html.unescape Html.lookup_sample;
     str_repr := Py.plain_repr;
     run_order := λ l, l;
     as_completed := λ l, rev l;
     run_order_perm := λ l, Permutation_refl l;
     as_completed_perm := λ l, Permutation_sym (Permutation_rev l) |}.

Definition translator : EasyGoogleTranslate.t :=
  EasyGoogleTranslate.__init__ None None None None.

Definition page (status : Z) (body : pystr) : response :=
  {| status_code := status; reason := Text.lit "OK"; resp_url := [];
     resp_text := body |}.

(** [<div class="result-container">It&#39;s fine</div>]. *)
Definition body_fine : pystr :=
  Text.lit "<div class=" ++ [Text.quote_char] ++ Text.lit "result-container"
  ++ [Text.quote_char; Text.gt_char] ++ Text.lit "It&#39;s fine</div>".

Definition body_unknown : pystr := Text.lit "<html>sorry</html>".

Definition world_of (answer : request → http_result)
    (files : gmap pystr pybytes) (inst : EasyGoogleTranslate.t) : world :=
  {| net := answer; fs := files; self := inst; trace := [] |}.

Definition online : world :=
  world_of (λ _, GetResponse (page 200 body_fine)) ∅ translator.

Definition strange : world :=
  world_of (λ _, GetResponse (page 200 body_unknown)) ∅ translator.

Definition offline : world :=
  world_of (λ _, GetRequestException (Text.lit "timed out")) ∅ translator.

Definition text_txt : pystr := Text.lit "text.txt".

Definition with_file : world :=
  world_of (λ _, GetResponse (page 200 body_fine))
           {[ text_txt := Text.lit "Hello" ]} translator.

Definition hello : pystr := Text.lit "Hello".

Definition long_text : pystr := repeat 97 (N.to_nat 5001).

End Sample.

(** ** What a run leaves alone *)

Module Obs.





(** A call that sends no request. *)
Definition same_requests (w w' : world) : Prop :=
  Proc.requests_in (trace w') = Proc.requests_in (trace w).

End Obs.

(** ** More sample data: the edges *)

Module Edge.

(** A text that is one lone surrogate. *)
Definition lone_surrogate : pystr := [0xD800].

(** A server whose page holds a lone surrogate. *)
Definition garbled : world :=
  Sample.world_of (λ _, GetResponse (Sample.page 200 lone_surrogate)) ∅ Sample.translator.

(** [requests.get] refuses the call with a [ValueError]. *)
Definition refusing : world :=
  Sample.world_of (λ _, GetOtherError (Text.lit "ValueError")) ∅ Sample.translator.

(** [text.txt] in Latin-1: the byte 0xE9 alone is not UTF-8. *)
Definition latin1_file : world :=
  Sample.world_of (net Sample.online) {[ Sample.text_txt := [0xE9] ]} Sample.translator.

(** [text.txt] with 5001 letters. *)
Definition long_file : world :=
  Sample.world_of (net Sample.online) {[ Sample.text_txt := Sample.long_text ]}
    Sample.translator.

(** [text.txt] with the two lines [Hi] and [there], ended by CR LF. *)
Definition crlf_bytes : pybytes := Text.lit "Hi" ++ [13; 10] ++ Text.lit "there" ++ [13; 10].

Definition crlf_file : world :=
  Sample.world_of (net Sample.online) {[ Sample.text_txt := crlf_bytes ]} Sample.translator.




(** A translator built with [target_language=[]]. *)
Definition no_targets : world :=
  Sample.world_of (net Sample.online) ∅
    (EasyGoogleTranslate.__init__ None (Some (PyList [])) None None).

(** A server that answers each request with its target language code as
    the translation. *)
Definition echo : world :=
  Sample.world_of
    (λ r, GetResponse
            (Sample.page 200 (Pattern.opening_t0 ++ drop 34 (take 36 (req_url r))
                              ++ [Text.lt_char])))
    ∅ Sample.translator.

End Edge.

(** ** Proof automation *)

(** Division and remainder by a constant are handed to [lia] as their
    defining equations. *)
Ltac Zify.zify_post_hook ::= Z.to_euclidean_division_equations.

(** Case analysis on the comparisons of the codecs, closed by arithmetic. *)
Ltac split_cmp :=
  repeat match goal with
         | |- context [N.ltb ?a ?b] => destruct (N.ltb_spec a b); try lia
         | |- context [N.leb ?a ?b] => destruct (N.leb_spec a b); try lia
         | H : context [N.ltb ?a ?b] |- _ => destruct (N.ltb_spec a b); try lia
         | H : context [N.leb ?a ?b] |- _ => destruct (N.leb_spec a b); try lia
         end.

(** Unfold the monad and the primitive operations and reduce. *)
Ltac run :=
  unfold mbind, mret, fmap, Proc.M_bind, Proc.M_ret, Proc.M_fmap, Proc.bind, Proc.ret,
    Proc.print, Proc.emit, Proc.exit, Proc.raise, Proc.requests_get, Proc.get_self,
    Proc.result, Proc.run_future;
  cbv beta iota zeta.

(** * Properties *)

(** ** The UTF-8 codec *)

Lemma decode_encode_cp c b bs :
  Utf8.encode_cp c = Some b → Utf8.decode (b ++ bs) = cons c <$> Utf8.decode bs.
Proof.
  unfold Utf8.encode_cp, Utf8.is_surrogate.
  intros H.
  destruct (N.ltb_spec c 0x80).
  { injection H as <-. cbn [app Utf8.decode]. destruct (N.ltb_spec c 0x80); [done|lia]. }
  destruct (N.ltb_spec c 0x800).
  { injection H as <-. cbn [app Utf8.decode]. unfold Utf8.is_cont.
    split_cmp. cbn [andb]. f_equal. f_equal. lia. }
  destruct (N.ltb_spec c 0x10000).
  { destruct (N.leb_spec 0xD800 c), (N.leb_spec c 0xDFFF); cbn [andb] in H; try discriminate;
    injection H as <-; cbn [app Utf8.decode]; unfold Utf8.is_cont, Utf8.is_surrogate.
    all: split_cmp; cbn [andb negb].
    all: try (f_equal; f_equal; lia). all: try lia. }
  destruct (N.ltb_spec c 0x110000); [|discriminate].
  injection H as <-; cbn [app Utf8.decode]; unfold Utf8.is_cont.
  split_cmp; cbn [andb negb]. all: try (f_equal; f_equal; lia). all: try lia.
Qed.

(** Decoding undoes encoding. *)
Lemma decode_encode s bs : Utf8.encode s = Some bs → Utf8.decode bs = Some s.
Proof.
  revert bs. induction s as [|c s IH]; intros bs; cbn [Utf8.encode].
  - by intros [= <-].
  - destruct (Utf8.encode_cp c) as [b|] eqn:Hc; [|done].
    destruct (Utf8.encode s) as [bs'|]; [|done].
    intros [= <-]. rewrite (decode_encode_cp _ _ _ Hc), (IH bs' eq_refl). done.
Qed.

Lemma encode_cp_scalar c : is_Some (Utf8.encode_cp c) ↔ Utf8.is_scalar c = true.
Proof.
  unfold Utf8.encode_cp, Utf8.is_scalar, Utf8.is_surrogate.
  split.
  - intros [b Hb]. split_cmp; cbn [andb negb] in *; try done.
  - intros H. split_cmp; cbn [andb negb] in *; try done; eauto.
Qed.

(** The texts that can be encoded are the well-formed ones. *)
Lemma encode_well_formed s : is_Some (Utf8.encode s) ↔ Utf8.well_formed s.
Proof.
  unfold Utf8.well_formed. induction s as [|c s IH]; cbn [Utf8.encode].
  - split; [constructor | eauto].
  - rewrite Forall_cons, <- IH, <- encode_cp_scalar.
    destruct (Utf8.encode_cp c), (Utf8.encode s); split;
      try (intros [[? [=]] [? [=]]]); try (intros [? [=]]); eauto.
Qed.

Lemma encode_cp_bytes c b : Utf8.encode_cp c = Some b → Forall (λ x, x < 256) b.
Proof.
  unfold Utf8.encode_cp, Utf8.is_surrogate. intros H.
  split_cmp; cbn [andb] in H; try discriminate; injection H as <-;
    repeat constructor; lia.
Qed.

Lemma encode_bytes s bs : Utf8.encode s = Some bs → Forall (λ x, x < 256) bs.
Proof.
  revert bs. induction s as [|c s IH]; intros bs; cbn [Utf8.encode].
  - intros [= <-]. constructor.
  - destruct (Utf8.encode_cp c) as [b|] eqn:Hc; [|done].
    destruct (Utf8.encode s) as [bs'|]; [|done].
    intros [= <-]. apply Forall_app. split; [by eapply encode_cp_bytes | by apply IH].
Qed.

(** ** Percent-encoding *)

(** The fast paths of [quote_from_bytes] give what the general path gives. *)
Lemma quote_flat_map bs : Url.quote bs = flat_map Url.quoter bs.
Proof.
  unfold Url.quote, Url.quote_from_bytes. destruct bs as [|b bs]; [done|].
  destruct (forallb Url.is_safe (b :: bs)) eqn:Hall; [|done].
  revert Hall. generalize (b :: bs). clear. intros l.
  induction l as [|x l IH]; cbn [forallb flat_map]; [done|].
  intros [Hx Hl]%andb_prop. unfold Url.quoter at 1. rewrite Hx.
  cbn [app]. f_equal. by apply IH.
Qed.

Lemma hex_value_upper d : d < 16 → Url.hex_value (Url.hex_upper d) = Some d.
Proof.
  intros Hd. unfold Url.hex_value, Url.hex_upper.
  split_cmp; cbn [andb]; f_equal; lia.
Qed.

Lemma hex_upper_safe d : d < 16 → Url.is_safe (Url.hex_upper d) = true.
Proof.
  intros Hd. unfold Url.is_safe, Url.always_safe, Url.hex_upper.
  split_cmp; cbn [andb orb]; done.
Qed.

Lemma safe_not_percent b : Url.is_safe b = true → (b =? 37) = false.
Proof.
  unfold Url.is_safe, Url.always_safe. intros H.
  destruct (N.eqb_spec b 37) as [->|]; [discriminate H|done].
Qed.

(** Percent-decoding the output of [quote] gives the bytes back. *)
Lemma percent_decode_quote bs :
  Forall (λ x, x < 256) bs → Url.percent_decode (Url.quote bs) = Some bs.
Proof.
  rewrite quote_flat_map.
  induction 1 as [|b bs Hb _ IH]; cbn [flat_map]; [done|].
  unfold Url.quoter at 1. destruct (Url.is_safe b) eqn:Hs; cbn [app Url.percent_decode].
  - rewrite (safe_not_percent _ Hs), IH. done.
  - change (37 =? 37) with true. cbv iota.
    rewrite !hex_value_upper by lia. rewrite IH. cbn. f_equal. f_equal. lia.
Qed.

(** [quote] writes safe characters and [%] only. *)
Lemma quote_chars bs :
  Forall (λ x, x < 256) bs → Forall (λ c, Url.url_char c = true) (Url.quote bs).
Proof.
  rewrite quote_flat_map.
  induction 1 as [|b bs Hb _ IH]; cbn [flat_map]; [constructor|].
  apply Forall_app. split; [|done].
  unfold Url.quoter, Url.url_char. destruct (Url.is_safe b) eqn:Hs.
  - repeat constructor. by rewrite Hs.
  - repeat constructor; try done; rewrite hex_upper_safe; try done; lia.
Qed.

(** ** The pattern *)

Lemma strip_prefix_app p r : Pattern.strip_prefix p (p ++ r) = Some r.
Proof.
  induction p as [|a p IH]; cbn [app Pattern.strip_prefix]; [done|].
  by rewrite N.eqb_refl.
Qed.

Lemma strip_prefix_Some p s r : Pattern.strip_prefix p s = Some r → s = p ++ r.
Proof.
  revert s. induction p as [|a p IH]; intros s; cbn [Pattern.strip_prefix].
  - by intros [= ->].
  - destruct s as [|b s]; [done|].
    destruct (N.eqb_spec a b) as [->|]; [|done].
    intros H. cbn [app]. f_equal. by apply IH.
Qed.

Lemma lazy_until_lt_app cap rest :
  Text.lt_char ∉ cap →
  Pattern.lazy_until_lt (cap ++ Text.lt_char :: rest) = Some (cap, rest).
Proof.
  induction cap as [|c cap IH]; intros Hnot; cbn [app Pattern.lazy_until_lt].
  - by rewrite N.eqb_refl.
  - apply not_elem_of_cons in Hnot as [Hc Hcap].
    destruct (N.eqb_spec c Text.lt_char) as [->|]; [done|].
    by rewrite (IH Hcap).
Qed.

Lemma lazy_until_lt_Some s cap rest :
  Pattern.lazy_until_lt s = Some (cap, rest) →
  s = cap ++ Text.lt_char :: rest ∧ Text.lt_char ∉ cap.
Proof.
  revert cap. induction s as [|c s IH]; intros cap; cbn [Pattern.lazy_until_lt]; [done|].
  destruct (N.eqb_spec c Text.lt_char) as [->|Hc].
  - intros [= <- <-]. split; [done|]. apply not_elem_of_nil.
  - destruct (Pattern.lazy_until_lt s) as [[cap' rest']|]; [|done].
    intros [= <- <-]. destruct (IH cap' eq_refl) as [-> Hnot].
    split; [done|]. apply not_elem_of_cons. split; [congruence|done].
Qed.

(** [match_at] finds a match at the head exactly when the text starts
    with an opening, a run without [<], and a [<]. *)
Lemma match_at_Some s cap rest :
  Pattern.match_at s = Some (cap, rest) ↔ ∃ mk, Pattern.occurs s [] mk cap rest.
Proof.
  split.
  - unfold Pattern.match_at. intros H.
    destruct (Pattern.strip_prefix Pattern.class_attr s) as [s1|] eqn:H1; [|done].
    apply strip_prefix_Some in H1 as ->. cbn [mbind option_bind] in H.
    assert (∀ name, Pattern.alternative name s1 = Some (cap, rest) →
              s1 = name ++ Pattern.tag_close ++ cap ++ Text.lt_char :: rest
              ∧ Text.lt_char ∉ cap) as Halt.
    { intros name. unfold Pattern.alternative. intros Ha.
      destruct (Pattern.strip_prefix name s1) as [s2|] eqn:H2; [|done].
      apply strip_prefix_Some in H2 as ->. cbn [mbind option_bind] in Ha.
      destruct (Pattern.strip_prefix Pattern.tag_close s2) as [s3|] eqn:H3; [|done].
      apply strip_prefix_Some in H3 as ->. cbn [mbind option_bind] in Ha.
      by apply lazy_until_lt_Some in Ha as [-> ?]. }
    destruct (Pattern.alternative Pattern.marker_t0 s1) as [m|] eqn:Ht.
    + injection H as ->. apply Halt in Ht as [-> Hnot].
      exists Pattern.opening_t0. unfold Pattern.occurs, Pattern.opening_t0.
      split_and!; [by rewrite <- !app_assoc | by left | done].
    + apply Halt in H as [-> Hnot].
      exists Pattern.opening_result_container.
      unfold Pattern.occurs, Pattern.opening_result_container.
      split_and!; [by rewrite <- !app_assoc | by right | done].
  - intros [mk (-> & Hmk & Hnot)]. cbn [app].
    unfold Pattern.match_at.
    destruct Hmk as [-> | ->].
    + unfold Pattern.opening_t0. rewrite <- !app_assoc, strip_prefix_app.
        cbn [mbind option_bind]. unfold Pattern.alternative at 1.
        rewrite strip_prefix_app. cbn [mbind option_bind].
        rewrite strip_prefix_app. cbn [mbind option_bind].
        by rewrite lazy_until_lt_app.
    + unfold Pattern.opening_result_container.
        rewrite <- !app_assoc, strip_prefix_app. cbn [mbind option_bind].
        unfold Pattern.alternative.
        change (Pattern.strip_prefix Pattern.marker_t0 (Pattern.marker_result_container ++ _))
          with (@None pystr).
        cbn [mbind option_bind].
        rewrite strip_prefix_app. cbn [mbind option_bind].
        rewrite strip_prefix_app. cbn [mbind option_bind].
        by rewrite lazy_until_lt_app.
Qed.

Lemma occurs_nil pre mk cap rest : ¬ Pattern.occurs [] pre mk cap rest.
Proof.
  intros (H & _ & _). symmetry in H.
  apply app_eq_nil in H as [_ H]. apply app_eq_nil in H as [_ H].
  apply app_eq_nil in H as [_ H]. done.
Qed.

Lemma occurs_cons c body pre mk cap rest :
  Pattern.occurs body pre mk cap rest ↔ Pattern.occurs (c :: body) (c :: pre) mk cap rest.
Proof.
  unfold Pattern.occurs. cbn [app]. split.
  - intros (-> & ? & ?). done.
  - intros ([= ->] & ? & ?). done.
Qed.

(** Where nothing matches at the head, every match lies in the tail. *)
Lemma occurs_tail c body pre mk cap rest :
  Pattern.match_at (c :: body) = None →
  Pattern.occurs (c :: body) pre mk cap rest →
  ∃ pre', pre = c :: pre' ∧ Pattern.occurs body pre' mk cap rest.
Proof.
  intros Hnone Hocc. destruct pre as [|c' pre'].
  - assert (Pattern.match_at (c :: body) = Some (cap, rest)) as Hsome
      by (apply match_at_Some; eauto).
    congruence.
  - assert (c' = c) as -> by (destruct Hocc as ([= ->] & _); done).
    exists pre'. split; [done|]. by apply (occurs_cons c).
Qed.

Lemma match_at_shorter s cap rest :
  Pattern.match_at s = Some (cap, rest) → (length rest < length s)%nat.
Proof.
  intros [mk (-> & _ & _)]%match_at_Some. cbn [app].
  rewrite !length_app. cbn [length]. lia.
Qed.

(** The fuel of [findall] is enough: more fuel changes nothing, and
    [findall] unfolds as the scan it stands for. *)
Lemma findall_fuel_enough f1 f2 s :
  (length s < f1)%nat → (length s < f2)%nat →
  Pattern.findall_fuel f1 s = Pattern.findall_fuel f2 s.
Proof.
  revert f2 s. induction f1 as [|f1 IH]; intros f2 s H1 H2; [lia|].
  destruct f2 as [|f2]; [lia|]. cbn [Pattern.findall_fuel].
  destruct (Pattern.match_at s) as [[cap rest]|] eqn:Hm.
  - apply match_at_shorter in Hm. f_equal. apply IH; lia.
  - destruct s as [|c s]; [done|]. cbn [length] in *. apply IH; lia.
Qed.

Lemma findall_unfold s :
  Pattern.findall s
  = match Pattern.match_at s with
    | Some (cap, rest) => cap :: Pattern.findall rest
    | None => match s with [] => [] | _ :: s' => Pattern.findall s' end
    end.
Proof.
  unfold Pattern.findall at 1. cbn [Pattern.findall_fuel].
  destruct (Pattern.match_at s) as [[cap rest]|] eqn:Hm.
  - apply match_at_shorter in Hm. f_equal.
    apply findall_fuel_enough; lia.
  - destruct s as [|c s]; [done|]. apply findall_fuel_enough; cbn [length]; lia.
Qed.

(** The first match is the head of what [findall] returns. *)
Lemma findall_fuel_first fuel body pre mk cap rest :
  (length pre < fuel)%nat →
  Pattern.first_occurrence body pre mk cap rest →
  ∃ more, Pattern.findall_fuel fuel body = cap :: more.
Proof.
  revert fuel body. induction pre as [|c pre IH]; intros fuel body Hfuel [Hocc Hleft].
  - destruct fuel as [|fuel]; [cbn in Hfuel; lia|].
    cbn [Pattern.findall_fuel].
    assert (Pattern.match_at body = Some (cap, rest)) as ->
      by (apply match_at_Some; eauto).
    eauto.
  - destruct fuel as [|fuel]; [cbn in Hfuel; lia|].
    cbn [Pattern.findall_fuel].
    destruct (Pattern.match_at body) as [[cap' rest']|] eqn:Hm.
    + apply match_at_Some in Hm as [mk' Hocc'].
      apply Hleft in Hocc'. cbn in Hocc'. lia.
    + destruct body as [|c' body]; [by apply occurs_nil in Hocc|].
      destruct (occurs_tail _ _ _ _ _ _ Hm Hocc) as (pre' & [= <- <-] & Hocc').
      apply IH; [cbn in Hfuel; lia|].
      split; [done|]. intros pre'' mk'' cap'' rest'' H''.
      apply (occurs_cons c) in H''. apply Hleft in H''. cbn in H''. lia.
Qed.

Lemma findall_first body pre mk cap rest :
  Pattern.first_occurrence body pre mk cap rest →
  ∃ more, Pattern.findall body = cap :: more.
Proof.
  intros H. apply (findall_fuel_first _ _ pre mk cap rest); [|done].
  destruct H as [(-> & _) _]. rewrite length_app. lia.
Qed.

(** A text in which the pattern matches has a first match. *)
Lemma matches_first body :
  Pattern.matches body → ∃ pre mk cap rest, Pattern.first_occurrence body pre mk cap rest.
Proof.
  induction body as [|c body IH]; intros (pre & mk & cap & rest & Hocc).
  - by apply occurs_nil in Hocc.
  - destruct (Pattern.match_at (c :: body)) as [[cap0 rest0]|] eqn:Hm.
    + apply match_at_Some in Hm as [mk0 H0].
      exists [], mk0, cap0, rest0. split; [done|]. intros. cbn. lia.
    + destruct (occurs_tail _ _ _ _ _ _ Hm Hocc) as (pre' & -> & Hocc').
      destruct IH as (p & m & cp & r & [Hp Hleft]).
      { by exists pre', mk, cap, rest. }
      exists (c :: p), m, cp, r. split; [by apply occurs_cons|].
      intros pre'' mk'' cap'' rest'' H''.
      destruct (occurs_tail _ _ _ _ _ _ Hm H'') as (q & -> & Hq).
      apply Hleft in Hq. cbn. lia.
Qed.

(** Without a match [findall] returns the empty list. *)
Lemma findall_fuel_nil fuel body :
  ¬ Pattern.matches body → Pattern.findall_fuel fuel body = [].
Proof.
  revert body. induction fuel as [|fuel IH]; intros body Hno; [done|].
  cbn [Pattern.findall_fuel].
  destruct (Pattern.match_at body) as [[cap rest]|] eqn:Hm.
  - apply match_at_Some in Hm as [mk Hocc]. destruct Hno. by exists [], mk, cap, rest.
  - destruct body as [|c body]; [done|]. apply IH.
    intros (pre & mk & cap & rest & Hocc). apply Hno.
    exists (c :: pre), mk, cap, rest. by apply occurs_cons.
Qed.

Lemma findall_nil body : ¬ Pattern.matches body → Pattern.findall body = [].
Proof. apply findall_fuel_nil. Qed.

(** [findall] is empty only where nothing matches. *)
Lemma findall_nil_inv body : Pattern.findall body = [] → ¬ Pattern.matches body.
Proof.
  intros Hnil Hm. apply matches_first in Hm as (pre & mk & cap & rest & Hfirst).
  apply findall_first in Hfirst as [more Hmore]. congruence.
Qed.

(** ** Running the methods *)

Section Running.

Context (rt : runtime).

Lemma make_request_unencodable tl sl text tmo px w :
  Utf8.encode text = None →
  make_request rt tl sl text tmo px w = (Raised (Text.lit "UnicodeEncodeError"), w).
Proof.
  intros H. unfold make_request, Proc.str_encode. rewrite H. by run.
Qed.

(** Up to the answer of the network: the text is encoded, the request
    recorded, and the answer handled. *)
Lemma make_request_sent tl sl text tmo px w bs :
  Utf8.encode text = Some bs →
  let req := request_of rt tl sl bs tmo px in
  let w1 := Proc.log (EvGet req) w in
  make_request rt tl sl text tmo px w =
    match net w req with
    | GetRequestException e => (Exited 1, Proc.log (EvPrint (error_prefix ++ e)) w1)
    | GetOtherError exn => (Raised exn, w1)
    | GetResponse r =>
        match raise_for_status r with
        | Some e => (Exited 1, Proc.log (EvPrint (error_prefix ++ e)) w1)
        | None =>
            match Utf8.encode (resp_text r) with
            | None => (Raised (Text.lit "UnicodeEncodeError"), w1)
            | Some enc =>
                match Pattern.findall (resp_text r) with
                | [] => (Exited 1,
                         Proc.log (EvWrite error_txt enc)
                           (Proc.store error_txt enc
                              (Proc.store error_txt []
                                 (Proc.log (EvPrint unknown_error) w1))))
                | first :: _ =>
                    (match html_unescape rt first with
                     | Some translation => Returned translation
                     | None => Raised (Text.lit "ValueError")
                     end, w1)
                end
            end
        end
    end.
Proof.
  intros H req w1. unfold make_request, Proc.str_encode. rewrite H. run.
  subst req w1. unfold request_of. destruct (net w _) as [r|e|exn]; [|done|done].
  destruct (raise_for_status r) as [e|]; [done|].
  destruct (Utf8.encode (resp_text r)) as [enc|] eqn:Henc; [|done].
  unfold Proc.bytes_decode. rewrite (decode_encode _ _ Henc). run.
  destruct (Pattern.findall (resp_text r)) as [|first more];
    [|by destruct (html_unescape rt first)].
  unfold Proc.write_text, Proc.str_encode. rewrite Henc. by run.
Qed.

Lemma make_request_fails tl sl text tmo px w bs e :
  Utf8.encode text = Some bs →
  request_fails (net w (request_of rt tl sl bs tmo px)) e →
  make_request rt tl sl text tmo px w
  = (Exited 1, Proc.log (EvPrint (error_prefix ++ e))
                 (Proc.log (EvGet (request_of rt tl sl bs tmo px)) w)).
Proof.
  intros Henc Hfail. rewrite (make_request_sent _ _ _ _ _ _ _ Henc).
  destruct Hfail as [-> | (r & -> & ->)]; done.
Qed.

(** [make_request] leaves the network and the instance as they are. *)
Lemma make_request_frame tl sl text tmo px w :
  net (make_request rt tl sl text tmo px w).2 = net w
  ∧ self (make_request rt tl sl text tmo px w).2 = self w.
Proof.
  destruct (Utf8.encode text) as [bs|] eqn:Henc.
  - rewrite (make_request_sent _ _ _ _ _ _ _ Henc).
    destruct (net w _) as [r|e|exn]; [|done|done].
    destruct (raise_for_status r); [done|].
    destruct (Utf8.encode (resp_text r)); [|done].
    destruct (Pattern.findall (resp_text r)); done.
  - by rewrite make_request_unencodable.
Qed.

Lemma requests_in_log e t :
  Proc.requests_in (t ++ [e])
  = Proc.requests_in t ++ match e with EvGet r => [r] | _ => [] end.
Proof. unfold Proc.requests_in. rewrite omap_app. by destruct e. Qed.

(** It calls [requests.get] once, whatever the answer. *)
Lemma make_request_requests tl sl text tmo px w bs :
  Utf8.encode text = Some bs →
  Proc.requests_in (trace (make_request rt tl sl text tmo px w).2)
  = Proc.requests_in (trace w) ++ [request_of rt tl sl bs tmo px].
Proof.
  intros Henc. rewrite (make_request_sent _ _ _ _ _ _ _ Henc).
  destruct (net w _) as [r|e|exn]; cbn [snd Proc.log Proc.store trace];
    rewrite ?requests_in_log, ?app_nil_r; try done.
  destruct (raise_for_status r); cbn [snd Proc.log Proc.store trace];
    rewrite ?requests_in_log, ?app_nil_r; try done.
  destruct (Utf8.encode (resp_text r)); cbn [snd Proc.log Proc.store trace];
    rewrite ?requests_in_log, ?app_nil_r; try done.
  destruct (Pattern.findall (resp_text r)); cbn [snd Proc.log Proc.store trace];
    rewrite ?requests_in_log, ?app_nil_r; done.
Qed.

(** It returns a string or does not return. *)

(** *** The pool *)

Lemma run_task_run sl text tmo px (f : nat * pyval) w :
  run_task rt sl text tmo px f w
  = (Returned (f.1, (make_request rt f.2 sl text tmo px w).1),
     (make_request rt f.2 sl text tmo px w).2).
Proof.
  unfold run_task. run. by destruct (make_request rt f.2 sl text tmo px w).
Qed.

Lemma run_tasks sl text tmo px (l : list (nat * pyval)) w :
  ∃ done w',
    Proc.sequence (List.map (run_task rt sl text tmo px) l) w = (Returned done, w')
    ∧ length done = length l
    ∧ net w' = net w ∧ self w' = self w
    ∧ (∀ bs, Utf8.encode text = Some bs →
         Proc.requests_in (trace w')
         = Proc.requests_in (trace w)
           ++ List.map (λ f, request_of rt f.2 sl bs tmo px) l)
    ∧ (∀ bs f e, Utf8.encode text = Some bs → f ∈ l →
         request_fails (net w (request_of rt f.2 sl bs tmo px)) e →
         (f.1, Exited 1) ∈ done).
Proof.
  revert w. induction l as [|f l IH]; intros w.
  - exists [], w. cbn [List.map Proc.sequence]. run.
    split_and!; try done.
    + intros. by rewrite app_nil_r.
    + intros bs f e _ Hf. by apply elem_of_nil in Hf.
  - cbn [List.map Proc.sequence].
    unfold mbind, mret, Proc.M_bind, Proc.M_ret, Proc.bind, Proc.ret.
    rewrite run_task_run. cbv beta. cbn [fst snd].
    pose proof (make_request_frame f.2 sl text tmo px w) as [Hnet Hself].
    pose proof (make_request_requests f.2 sl text tmo px w) as Hreq.
    pose proof (make_request_fails f.2 sl text tmo px w) as Hfail.
    destruct (make_request rt f.2 sl text tmo px w) as [o w1]. cbn [fst snd] in *.
    destruct (IH w1) as (done & w' & -> & Hlen & Hnet' & Hself' & Hreq' & Hfail').
    exists ((f.1, o) :: done), w'. split_and!.
    + done.
    + cbn [length]. by rewrite Hlen.
    + congruence.
    + congruence.
    + intros bs Henc. rewrite (Hreq' bs Henc), (Hreq bs Henc).
      cbn [List.map]. by rewrite <- app_assoc.
    + intros bs g e Henc Hg Hbad. apply elem_of_cons in Hg as [-> | Hg].
      * specialize (Hfail bs e Henc Hbad). injection Hfail as -> _. left.
      * right. apply (Hfail' bs g e Henc Hg). by rewrite Hnet.
Qed.

Lemma sequence_result (l : list (nat * outcome pystr)) w :
  Proc.sequence (List.map (λ f : nat * outcome pystr, Proc.result f.2) l) w
  = (Proc.results_of l.*2, w).
Proof.
  induction l as [|[i o] l IH]; [done|].
  cbn [List.map Proc.sequence fmap list_fmap Proc.results_of snd].
  unfold mbind, mret, Proc.M_bind, Proc.M_ret, Proc.bind, Proc.ret.
  unfold Proc.result at 1.
  destruct o as [a|c|e]; [|done|done].
  rewrite IH. by destruct (Proc.results_of l.*2).
Qed.

Lemma results_of_length {A} (l : list (outcome A)) vs :
  Proc.results_of l = Returned vs → length vs = length l.
Proof.
  revert vs. induction l as [|[a|c|e] l IH]; intros vs; cbn [Proc.results_of]; try done.
  - by intros [= <-].
  - destruct (Proc.results_of l); try done.
    intros [= <-]. cbn [length]. f_equal. by apply IH.
Qed.

Lemma results_of_stopped {A} (l : list (outcome A)) o :
  o ∈ l → Proc.is_returned o = false → Proc.is_returned (Proc.results_of l) = false.
Proof.
  induction l as [|[a|c|e] l IH]; cbn [Proc.results_of]; try done.
  - by intros ?%elem_of_nil.
  - intros [-> | Hin]%elem_of_cons Ho; [done|].
    specialize (IH Hin Ho). by destruct (Proc.results_of l).
Qed.

(** The fan-out: one request per target, sent in some order; what it
    returns is a list with one string per target; it does not return
    when a request fails. *)
Lemma fan_out_shape targets sl text tmo px w :
  ∃ o w',
    fan_out rt targets sl text tmo px w = (o, w')
    ∧ net w' = net w ∧ self w' = self w
    ∧ (∀ v, o = Returned v →
         ∃ rs, v = PyList (PyStr <$> rs) ∧ length rs = length targets)
    ∧ (∀ bs, Utf8.encode text = Some bs →
         ∃ order, order ≡ₚ targets
           ∧ Proc.requests_in (trace w')
             = Proc.requests_in (trace w)
               ++ List.map (λ t, request_of rt t sl bs tmo px) order)
    ∧ (∀ bs t e, Utf8.encode text = Some bs → t ∈ targets →
         request_fails (net w (request_of rt t sl bs tmo px)) e →
         Proc.is_returned o = false).
Proof.
  unfold fan_out. cbv zeta.
  set (futures := zip (seq 0 (length targets)) targets).
  assert (futures.*2 = targets) as Hsnd
    by (apply snd_zip; rewrite length_seq; lia).
  pose proof (f_equal length Hsnd) as Hlenf. rewrite length_fmap in Hlenf.
  destruct (run_tasks sl text tmo px (run_order rt futures) w)
    as (done & w' & Hrun & Hlen & Hnet & Hself & Hreq & Hfail).
  run. rewrite Hrun. rewrite sequence_result.
  destruct (Proc.results_of (as_completed rt done).*2) as [rs|c|e] eqn:Hres.
  - eexists _, w'. split; [done|]. split_and!; try done.
    + intros v [= <-]. exists rs. split; [done|].
      apply results_of_length in Hres. rewrite Hres, length_fmap.
      rewrite (Permutation_length (as_completed_perm rt done)), Hlen.
      by rewrite (Permutation_length (run_order_perm rt futures)).
    + intros bs Henc. exists (run_order rt futures).*2. split.
      * rewrite <- Hsnd. apply fmap_Permutation, run_order_perm.
      * rewrite (Hreq bs Henc). f_equal. by rewrite <- list_fmap_compose.
    + intros bs t e Henc Ht Hbad.
      assert (∃ i, (i, t) ∈ run_order rt futures) as [i Hi].
      { rewrite <- Hsnd in Ht. apply list_elem_of_fmap in Ht as ([i t'] & -> & Hin).
        exists i. by rewrite (run_order_perm rt futures). }
      specialize (Hfail bs (i, t) e Henc Hi Hbad). cbn [fst] in Hfail.
      assert (Exited 1 ∈ (as_completed rt done).*2) as Hex.
      { apply list_elem_of_fmap. exists (i, Exited 1). split; [done|].
        by rewrite (as_completed_perm rt done). }
      apply results_of_stopped in Hex; [|done]. by rewrite Hres in Hex.
  - eexists _, w'. split; [done|]. split_and!; try done.
    intros bs Henc. exists (run_order rt futures).*2. split.
    + rewrite <- Hsnd. apply fmap_Permutation, run_order_perm.
    + rewrite (Hreq bs Henc). f_equal. by rewrite <- list_fmap_compose.
  - eexists _, w'. split; [done|]. split_and!; try done.
    intros bs Henc. exists (run_order rt futures).*2. split.
    + rewrite <- Hsnd. apply fmap_Permutation, run_order_perm.
    + rewrite (Hreq bs Henc). f_equal. by rewrite <- list_fmap_compose.
Qed.

End Running.

(** * The properties of the specification *)

Section Claims.

Context (rt : runtime).

Lemma dispatch_single text tgt sl tmo px :
  Py.is_list tgt = false →
  dispatch rt text tgt sl tmo px = PyStr <$> make_request rt tgt sl text tmo px.
Proof. by destruct tgt. Qed.

Lemma fmap_run {A B} (f : A → B) (m : Proc.M A) w :
  (f <$> m) w = match m w with
                | (Returned a, w') => (Returned (f a), w')
                | (Exited c, w') => (Exited c, w')
                | (Raised e, w') => (Raised e, w')
                end.
Proof. run. by destruct (m w) as [[a|c|e] w']. Qed.

Lemma translate_short text tl sl tmo px w :
  Text.len text ≤ 5000 →
  translate rt text tl sl tmo px w
  = dispatch rt text
      (Py.or tl (EasyGoogleTranslate.target_language (self w)))
      (Py.or sl (EasyGoogleTranslate.source_language (self w)))
      (Py.or tmo (EasyGoogleTranslate.timeout (self w)))
      (Py.or px (EasyGoogleTranslate.proxies (self w))) w.
Proof.
  intros Hlen. unfold translate. run.
  destruct (N.ltb_spec 5000 (Text.len text)); [lia|done].
Qed.

Lemma translate_long text tl sl tmo px w :
  5000 < Text.len text →
  translate rt text tl sl tmo px w = (Exited 1, Proc.log (EvPrint (too_long text)) w).
Proof.
  intros Hlen. unfold translate. run.
  destruct (N.ltb_spec 5000 (Text.len text)); [done|lia].
Qed.

(** The instance is the same after [dispatch] as before. *)
Lemma dispatch_frame text tgt sl tmo px w :
  net (dispatch rt text tgt sl tmo px w).2 = net w
  ∧ self (dispatch rt text tgt sl tmo px w).2 = self w.
Proof.
  destruct (Py.is_list tgt) eqn:Hl.
  - destruct tgt as [| | | |targets| |]; try done. cbn [dispatch].
    destruct (fan_out_shape rt targets sl text tmo px w)
      as (o & w' & -> & Hnet & Hself & _). done.
  - rewrite (dispatch_single _ _ _ _ _ Hl), fmap_run.
    pose proof (make_request_frame rt tgt sl text tmo px w) as H.
    by destruct (make_request rt tgt sl text tmo px w) as [[a|c|e] w'].
Qed.

(** C2. A text of more than 5000 characters makes [translate] report the
    error and exit with status 1 before any request: the trace gains the
    message and nothing else, so [requests.get] is not called. A text of
    at most 5000 characters passes the check: the call goes on to the
    dispatch of lines 131 to 139 with the resolved parameters. *)
Theorem translate_length_check text tl sl tmo px w :
  (5000 < Text.len text →
     translate rt text tl sl tmo px w
     = (Exited 1, Proc.log (EvPrint (too_long text)) w)
     ∧ Proc.requests_in (trace (translate rt text tl sl tmo px w).2)
       = Proc.requests_in (trace w))
  ∧ (Text.len text ≤ 5000 →
     translate rt text tl sl tmo px w
     = dispatch rt text
         (Py.or tl (EasyGoogleTranslate.target_language (self w)))
         (Py.or sl (EasyGoogleTranslate.source_language (self w)))
         (Py.or tmo (EasyGoogleTranslate.timeout (self w)))
         (Py.or px (EasyGoogleTranslate.proxies (self w))) w).
Proof.
  split.
  - intros Hlen. rewrite (translate_long _ _ _ _ _ _ Hlen). split; [done|].
    cbn [snd Proc.log trace]. by rewrite requests_in_log, app_nil_r.
  - apply translate_short.
Qed.


(** C4. For a text of at most 5000 characters that has a UTF-8 encoding
    [bs], the URL of the request is the template with the target and
    source codes as given and, after [q=], the percent-encoding of [bs]:
    byte by byte, an unreserved byte or [/] as it is and any other as
    [%XX]; it decodes to exactly [bs] and holds unreserved characters, [/]
    and [%XX] only. This is the URL [make_request] asks for, and the one
    [translate] asks for when it is given the two codes. *)
Theorem request_url text (tl sl : pystr) tmo px w bs :
  Text.len text ≤ 5000 →
  Utf8.encode text = Some bs →
  let q := Url.quote bs in
  let url := Text.lit "https://translate.google.com/m?tl=" ++ tl
             ++ Text.lit "&sl=" ++ sl ++ Text.lit "&q=" ++ q in
  q = flat_map Url.quoter bs
  ∧ Url.percent_decode q = Some bs
  ∧ Forall (λ c, Url.url_char c = true) q
  ∧ Proc.requests_in (trace (make_request rt (PyStr tl) (PyStr sl) text tmo px w).2)
    = Proc.requests_in (trace w) ++ [Request url tmo px]
  ∧ (tl ≠ [] → sl ≠ [] →
     Proc.requests_in (trace (translate rt text (PyStr tl) (PyStr sl) tmo px w).2)
     = Proc.requests_in (trace w)
       ++ [Request url (Py.or tmo (EasyGoogleTranslate.timeout (self w)))
                       (Py.or px (EasyGoogleTranslate.proxies (self w)))]).
Proof.
  intros Hlen Henc q url.
  pose proof (encode_bytes _ _ Henc) as Hbytes.
  split_and!.
  - apply quote_flat_map.
  - by apply percent_decode_quote.
  - by apply quote_chars.
  - by rewrite (make_request_requests _ _ _ _ _ _ _ _ Henc).
  - intros Htl Hsl. rewrite (translate_short _ _ _ _ _ _ Hlen).
    assert (∀ s, s ≠ [] → ∀ d, Py.or (PyStr s) d = PyStr s) as Hor.
    { intros s Hs d. unfold Py.or, Py.truthy. by rewrite bool_decide_eq_false_2. }
    rewrite !Hor by done. cbn [dispatch]. rewrite fmap_run.
    pose proof (make_request_requests rt (PyStr tl) (PyStr sl) text
                  (Py.or tmo (EasyGoogleTranslate.timeout (self w)))
                  (Py.or px (EasyGoogleTranslate.proxies (self w))) w bs Henc) as H.
    by destruct (make_request rt _ _ _ _ _ w) as [[a|c|e] w'].
Qed.

(** C5, as amended. A parameter resolves to the argument of the call when
    that argument is truthy, else to the value the constructor was given,
    else to the default of the signature ([source_language = 'auto'],
    [target_language = 'tr'], [timeout = 5], [proxies = None]);
    [translate] runs with the four values so resolved, and the instance
    is the same after the call as before, however the call ends. *)
Theorem parameter_resolution (src tgt tmo0 px0 : option pyval) text tl sl tmo px w :
  self w = EasyGoogleTranslate.__init__ src tgt tmo0 px0 →
  (Text.len text ≤ 5000 →
     translate rt text tl sl tmo px w
     = dispatch rt text
         (resolved tl tgt (PyStr (Text.lit "tr")))
         (resolved sl src (PyStr (Text.lit "auto")))
         (resolved tmo tmo0 (PyInt 5))
         (resolved px px0 PyNone) w)
  ∧ self (translate rt text tl sl tmo px w).2 = self w.
Proof.
  intros Hself. split.
  - intros Hlen. rewrite (translate_short _ _ _ _ _ _ Hlen), Hself. done.
  - destruct (N.ltb_spec 5000 (Text.len text)) as [Hlong|Hshort].
    + by rewrite (translate_long _ _ _ _ _ _ Hlong).
    + rewrite (translate_short _ _ _ _ _ _ Hshort). apply dispatch_frame.
Qed.

(** C6. When the request succeeds and the pattern matches nowhere in the
    body, a text without lone surrogates, [make_request] prints the
    unknown-error message, writes the body to [error.txt] (the file then
    holds the UTF-8 encoding of the body, which decodes to the body) and
    exits with status 1; it returns nothing. *)
Theorem unknown_response_exits tl sl text tmo px w bs r :
  Utf8.encode text = Some bs →
  net w (request_of rt tl sl bs tmo px) = GetResponse r →
  raise_for_status r = None →
  Utf8.well_formed (resp_text r) →
  ¬ Pattern.matches (resp_text r) →
  ∃ enc w',
    make_request rt tl sl text tmo px w = (Exited 1, w')
    ∧ Utf8.encode (resp_text r) = Some enc
    ∧ Utf8.decode enc = Some (resp_text r)
    ∧ fs w' = <[error_txt := enc]> (fs w)
    ∧ trace w' = trace w ++ [EvGet (request_of rt tl sl bs tmo px);
                             EvPrint unknown_error; EvWrite error_txt enc]
    ∧ net w' = net w ∧ self w' = self w.
Proof.
  intros Henc Hnet Hok Hwf Hno.
  apply encode_well_formed in Hwf as [enc Hbody].
  exists enc. eexists. split.
  - rewrite (make_request_sent _ _ _ _ _ _ _ _ Henc). cbv zeta.
    by rewrite Hnet, Hok, Hbody, (findall_nil _ Hno).
  - split_and!; try done.
    + by apply decode_encode.
    + cbn [Proc.log Proc.store fs]. apply insert_insert_eq.
    + cbn [Proc.log Proc.store trace]. by rewrite <- !app_assoc.
Qed.

(** C7. A request that fails, by a [RequestException] of [requests.get]
    or by a status from 400 to 599, is fatal: [make_request] calls
    [requests.get] once, prints the error and exits with status 1. So
    does [translate] for a single target; with a list of targets of which
    one fails, [translate] does not return a value. *)
Theorem request_failure_is_fatal text tl sl tmo px w bs :
  Text.len text ≤ 5000 →
  Utf8.encode text = Some bs →
  let tgt := Py.or tl (EasyGoogleTranslate.target_language (self w)) in
  let src := Py.or sl (EasyGoogleTranslate.source_language (self w)) in
  let tmo' := Py.or tmo (EasyGoogleTranslate.timeout (self w)) in
  let px' := Py.or px (EasyGoogleTranslate.proxies (self w)) in
  let reported t e :=
    Proc.log (EvPrint (error_prefix ++ e))
      (Proc.log (EvGet (request_of rt t src bs tmo' px')) w) in
  (∀ t e, request_fails (net w (request_of rt t src bs tmo' px')) e →
     make_request rt t src text tmo' px' w = (Exited 1, reported t e))
  ∧ (∀ e, Py.is_list tgt = false →
       request_fails (net w (request_of rt tgt src bs tmo' px')) e →
       translate rt text tl sl tmo px w = (Exited 1, reported tgt e))
  ∧ (∀ targets t e, tgt = PyList targets → t ∈ targets →
       request_fails (net w (request_of rt t src bs tmo' px')) e →
       Proc.is_returned (translate rt text tl sl tmo px w).1 = false).
Proof.
  intros Hlen Henc tgt src tmo' px' reported. split_and!.
  - intros t e Hbad. by apply make_request_fails.
  - intros e Hl Hbad. rewrite (translate_short _ _ _ _ _ _ Hlen).
    fold tgt src tmo' px'. rewrite (dispatch_single _ _ _ _ _ Hl), fmap_run.
    by rewrite (make_request_fails _ _ _ _ _ _ _ _ _ Henc Hbad).
  - intros targets t e Htgt Ht Hbad. rewrite (translate_short _ _ _ _ _ _ Hlen).
    fold tgt src tmo' px'. rewrite Htgt. cbn [dispatch].
    destruct (fan_out_shape rt targets src text tmo' px' w)
      as (o & w' & -> & _ & _ & _ & _ & Hstop).
    by apply (Hstop bs t e).
Qed.

(** C8. Where the path names no regular file, [translate_file] prints the
    error and exits with status 1: the trace gains the message alone, no
    file is read and no request sent. Where it names a regular file whose
    bytes are UTF-8, [translate_file] reads it and goes on as [translate]
    does on the text of the file (the decoded bytes, line ends as text
    mode reads them) with the same remaining arguments. *)
Theorem translate_file_delegates path tl sl tmo px w :
  (fs w !! path = None →
     translate_file rt path tl sl tmo px w
     = (Exited 1, Proc.log (EvPrint bad_path) w))
  ∧ (∀ bs text, fs w !! path = Some bs → Utf8.decode bs = Some text →
       translate_file rt path tl sl tmo px w
       = translate rt (Utf8.universal_newlines text) tl sl tmo px
           (Proc.log (EvRead path) w)).
Proof.
  split.
  - intros Hnone. unfold translate_file, Proc.os_path_isfile. run.
    rewrite Hnone. rewrite bool_decide_eq_false_2 by (by intros [? [=]]). done.
  - intros bs text Hsome Hdec. unfold translate_file, Proc.os_path_isfile. run.
    rewrite Hsome. rewrite bool_decide_eq_true_2 by eauto. cbn [negb].
    unfold Proc.read_text, Proc.bytes_decode. run. cbn [Proc.log fs].
    rewrite Hsome, Hdec. by run.
Qed.

(** C9, as amended. An argument of the call that is falsy (an empty list,
    an empty string, 0, an empty mapping, [None]) stands for the value of
    the instance: the call does what the call with that value in its
    place does. When the target of the instance is not a list,
    [translate(text, target_language=[])] sends one request, for the
    target of the instance, and what it returns is a string. *)
Theorem falsy_argument_uses_default text tl sl tmo px w bs :
  let inst := self w in
  (Py.truthy (PyList []) = false ∧ Py.truthy (PyStr []) = false
   ∧ Py.truthy (PyInt 0) = false ∧ Py.truthy (PyDict []) = false)
  ∧ (Py.truthy tl = false →
     translate rt text tl sl tmo px w
     = translate rt text (EasyGoogleTranslate.target_language inst) sl tmo px w)
  ∧ (Py.truthy sl = false →
     translate rt text tl sl tmo px w
     = translate rt text tl (EasyGoogleTranslate.source_language inst) tmo px w)
  ∧ (Py.truthy tmo = false →
     translate rt text tl sl tmo px w
     = translate rt text tl sl (EasyGoogleTranslate.timeout inst) px w)
  ∧ (Py.truthy px = false →
     translate rt text tl sl tmo px w
     = translate rt text tl sl tmo (EasyGoogleTranslate.proxies inst) w)
  ∧ (Text.len text ≤ 5000 → Utf8.encode text = Some bs →
     Py.is_list (EasyGoogleTranslate.target_language inst) = false →
     let call := translate rt text (PyList []) sl tmo px w in
     Proc.requests_in (trace call.2)
     = Proc.requests_in (trace w)
       ++ [request_of rt (EasyGoogleTranslate.target_language inst)
             (Py.or sl (EasyGoogleTranslate.source_language inst)) bs
             (Py.or tmo (EasyGoogleTranslate.timeout inst))
             (Py.or px (EasyGoogleTranslate.proxies inst))]
     ∧ ∀ v, call.1 = Returned v → ∃ s, v = PyStr s).
Proof.
  intros inst.
  assert (∀ a d, Py.truthy a = false → Py.or a d = Py.or d d) as Hor.
  { intros a d Ha. unfold Py.or. rewrite Ha. by destruct (Py.truthy d). }
  split_and!; try done.
  - intros H. unfold translate. run. fold inst. by rewrite (Hor _ _ H).
  - intros H. unfold translate. run. fold inst. by rewrite (Hor _ _ H).
  - intros H. unfold translate. run. fold inst. by rewrite (Hor _ _ H).
  - intros H. unfold translate. run. fold inst. by rewrite (Hor _ _ H).
  - intros Hlen Henc Hl call. subst call.
    rewrite (translate_short _ _ _ _ _ _ Hlen). fold inst.
    change (Py.or (PyList []) ?d) with d.
    rewrite (dispatch_single _ _ _ _ _ Hl), fmap_run.
    pose proof (make_request_requests rt (EasyGoogleTranslate.target_language inst)
                  (Py.or sl (EasyGoogleTranslate.source_language inst)) text
                  (Py.or tmo (EasyGoogleTranslate.timeout inst))
                  (Py.or px (EasyGoogleTranslate.proxies inst)) w bs Henc) as H.
    destruct (make_request rt _ _ _ _ _ w) as [[a|c|e] w']; cbn [fst snd] in *;
      (split; [done|]); intros v [= <-]; eauto.
Qed.

(** C10. [translate] fans out exactly when the resolved target is a list.
    For any other value, a tuple included, it is one call of
    [make_request]: one request, in whose URL the value stands as
    [str()] gives it, and what is returned is a string. For a list it
    sends one request per element, in the order the pool runs them, and
    what is returned is a list with one string per element. *)
Theorem fan_out_only_for_lists text tl sl tmo px w bs :
  Text.len text ≤ 5000 →
  Utf8.encode text = Some bs →
  let tgt := Py.or tl (EasyGoogleTranslate.target_language (self w)) in
  let src := Py.or sl (EasyGoogleTranslate.source_language (self w)) in
  let tmo' := Py.or tmo (EasyGoogleTranslate.timeout (self w)) in
  let px' := Py.or px (EasyGoogleTranslate.proxies (self w)) in
  let url t := Text.lit "https://translate.google.com/m?tl=" ++ Py.str (str_repr rt) t
               ++ Text.lit "&sl=" ++ Py.str (str_repr rt) src
               ++ Text.lit "&q=" ++ Url.quote bs in
  let call := translate rt text tl sl tmo px w in
  (Py.is_list tgt = false →
     call = (PyStr <$> make_request rt tgt src text tmo' px') w
     ∧ Proc.requests_in (trace call.2)
       = Proc.requests_in (trace w) ++ [Request (url tgt) tmo' px']
     ∧ ∀ v, call.1 = Returned v → ∃ s, v = PyStr s)
  ∧ (∀ targets, tgt = PyList targets →
     (∃ order, order ≡ₚ targets
        ∧ Proc.requests_in (trace call.2)
          = Proc.requests_in (trace w)
            ++ List.map (λ t, Request (url t) tmo' px') order)
     ∧ ∀ v, call.1 = Returned v →
         ∃ rs, v = PyList (PyStr <$> rs) ∧ length rs = length targets).
Proof.
  intros Hlen Henc tgt src tmo' px' url call. subst call.
  rewrite (translate_short _ _ _ _ _ _ Hlen). fold tgt src tmo' px'. split.
  - intros Hl. rewrite (dispatch_single _ _ _ _ _ Hl). split; [done|].
    rewrite fmap_run.
    pose proof (make_request_requests rt tgt src text tmo' px' w bs Henc) as H.
    destruct (make_request rt tgt src text tmo' px' w) as [[a|c|e] w'];
      cbn [fst snd] in *; (split; [done|]); intros v [= <-]; eauto.
  - intros targets ->. cbn [dispatch].
    destruct (fan_out_shape rt targets src text tmo' px' w)
      as (o & w' & -> & _ & _ & Hret & Hreq & _).
    cbn [fst snd]. split; [|done].
    destruct (Hreq bs Henc) as (order & Hperm & ->). by exists order.
Qed.

End Claims.

(** * The properties on the sample data *)

Lemma translate_length_check_witness :
  (5000 < Text.len Sample.long_text
   ∧ translate Sample.rt Sample.long_text PyNone PyNone PyNone PyNone Sample.online
     = (Exited 1, Proc.log (EvPrint (too_long Sample.long_text)) Sample.online))
  ∧ (Text.len Sample.hello ≤ 5000
     ∧ (translate Sample.rt Sample.hello PyNone PyNone PyNone PyNone Sample.online).1
       = Returned (PyStr (Text.lit "It's fine"))).
Proof.
  assert (5000 < Text.len Sample.long_text) as Hlong by (by vm_compute).
  assert (Text.len Sample.hello ≤ 5000) as Hshort by (by vm_compute).
  split; (split; [done|]).
  - apply (translate_length_check Sample.rt Sample.long_text PyNone PyNone PyNone PyNone
             Sample.online), Hlong.
  - destruct (translate_length_check Sample.rt Sample.hello PyNone PyNone PyNone PyNone
                Sample.online) as [_ H].
    rewrite (H Hshort). by vm_compute.
Defined.


Lemma request_url_witness :
  Text.len Sample.hello ≤ 5000
  ∧ Utf8.encode Sample.hello = Some (Text.lit "Hello")
  ∧ Proc.requests_in
      (trace (translate Sample.rt Sample.hello (PyStr (Text.lit "fr")) (PyStr (Text.lit "en"))
                PyNone PyNone Sample.online).2)
    = [Request (Text.lit "https://translate.google.com/m?tl=fr&sl=en&q=Hello")
         (PyInt 5) PyNone].
Proof.
  assert (Text.len Sample.hello ≤ 5000) as Hshort by (by vm_compute).
  assert (Utf8.encode Sample.hello = Some (Text.lit "Hello")) as Henc by reflexivity.
  split_and!; [done|done|].
  destruct (request_url Sample.rt Sample.hello (Text.lit "fr") (Text.lit "en") PyNone PyNone
              Sample.online (Text.lit "Hello") Hshort Henc) as (_ & _ & _ & _ & H).
  apply H; by vm_compute.
Defined.

Lemma parameter_resolution_witness :
  self Sample.online = EasyGoogleTranslate.__init__ None None None None
  ∧ Text.len Sample.hello ≤ 5000
  ∧ translate Sample.rt Sample.hello PyNone (PyStr (Text.lit "en")) PyNone PyNone Sample.online
    = dispatch Sample.rt Sample.hello (PyStr (Text.lit "tr")) (PyStr (Text.lit "en"))
        (PyInt 5) PyNone Sample.online
  ∧ self (translate Sample.rt Sample.hello PyNone (PyStr (Text.lit "en")) PyNone PyNone
            Sample.online).2 = self Sample.online.
Proof.
  assert (Text.len Sample.hello ≤ 5000) as Hshort by (by vm_compute).
  destruct (parameter_resolution Sample.rt None None None None Sample.hello
              PyNone (PyStr (Text.lit "en")) PyNone PyNone Sample.online eq_refl) as [H1 H2].
  split_and!; [done | done | exact (H1 Hshort) | exact H2].
Defined.

Lemma unknown_response_exits_witness :
  ¬ Pattern.matches Sample.body_unknown
  ∧ ∃ enc w',
      make_request Sample.rt (PyStr (Text.lit "tr")) (PyStr (Text.lit "auto"))
        Sample.hello (PyInt 5) PyNone Sample.strange = (Exited 1, w')
      ∧ Utf8.encode Sample.body_unknown = Some enc
      ∧ fs w' !! Text.lit "error.txt" = Some enc.
Proof.
  assert (¬ Pattern.matches Sample.body_unknown) as Hno
    by (apply findall_nil_inv; by vm_compute).
  split; [done|].
  destruct (unknown_response_exits Sample.rt (PyStr (Text.lit "tr")) (PyStr (Text.lit "auto"))
              Sample.hello (PyInt 5) PyNone Sample.strange (Text.lit "Hello")
              (Sample.page 200 Sample.body_unknown))
    as (enc & w' & Hrun & Henc & _ & Hfs & _).
  - reflexivity.
  - reflexivity.
  - reflexivity.
  - apply encode_well_formed. eexists. by vm_compute.
  - done.
  - exists enc, w'. split_and!; [done | done |].
    rewrite Hfs. apply lookup_insert_eq.
Defined.

Lemma request_failure_is_fatal_witness :
  request_fails (net Sample.offline
                   (request_of Sample.rt (PyStr (Text.lit "tr")) (PyStr (Text.lit "auto"))
                      (Text.lit "Hello") (PyInt 5) PyNone)) (Text.lit "timed out")
  ∧ translate Sample.rt Sample.hello PyNone PyNone PyNone PyNone Sample.offline
    = (Exited 1,
       Proc.log (EvPrint (error_prefix ++ Text.lit "timed out"))
         (Proc.log (EvGet (request_of Sample.rt (PyStr (Text.lit "tr"))
                             (PyStr (Text.lit "auto")) (Text.lit "Hello") (PyInt 5) PyNone))
            Sample.offline))
  ∧ Proc.is_returned
      (translate Sample.rt Sample.hello
         (PyList [PyStr (Text.lit "fr"); PyStr (Text.lit "de")]) PyNone PyNone PyNone
         Sample.offline).1 = false.
Proof.
  assert (Text.len Sample.hello ≤ 5000) as Hshort by (by vm_compute).
  assert (∀ t, request_fails (net Sample.offline t) (Text.lit "timed out")) as Hdown
    by (intros t; by left).
  split_and!.
  - apply Hdown.
  - destruct (request_failure_is_fatal Sample.rt Sample.hello PyNone PyNone PyNone PyNone
                Sample.offline (Text.lit "Hello") Hshort eq_refl) as (_ & H & _).
    apply H; [reflexivity | apply Hdown].
  - destruct (request_failure_is_fatal Sample.rt Sample.hello
                (PyList [PyStr (Text.lit "fr"); PyStr (Text.lit "de")]) PyNone PyNone PyNone
                Sample.offline (Text.lit "Hello") Hshort eq_refl) as (_ & _ & H).
    apply (H [PyStr (Text.lit "fr"); PyStr (Text.lit "de")] (PyStr (Text.lit "fr"))
             (Text.lit "timed out")); [reflexivity | by left | apply Hdown].
Defined.

Lemma translate_file_delegates_witness :
  (fs Sample.online !! Sample.text_txt = None
   ∧ translate_file Sample.rt Sample.text_txt PyNone PyNone PyNone PyNone Sample.online
     = (Exited 1, Proc.log (EvPrint bad_path) Sample.online))
  ∧ (fs Sample.with_file !! Sample.text_txt = Some (Text.lit "Hello")
     ∧ Utf8.decode (Text.lit "Hello") = Some Sample.hello
     ∧ translate_file Sample.rt Sample.text_txt PyNone PyNone PyNone PyNone Sample.with_file
       = translate Sample.rt Sample.hello PyNone PyNone PyNone PyNone
           (Proc.log (EvRead Sample.text_txt) Sample.with_file)).
Proof.
  assert (fs Sample.online !! Sample.text_txt = None) as Hnone by reflexivity.
  assert (fs Sample.with_file !! Sample.text_txt = Some (Text.lit "Hello")) as Hsome
    by (by vm_compute).
  assert (Utf8.decode (Text.lit "Hello") = Some Sample.hello) as Hdec by reflexivity.
  split.
  - split; [exact Hnone|].
    exact (proj1 (translate_file_delegates Sample.rt Sample.text_txt PyNone PyNone PyNone
                    PyNone Sample.online) Hnone).
  - split; [exact Hsome|]. split; [exact Hdec|].
    exact (proj2 (translate_file_delegates Sample.rt Sample.text_txt PyNone PyNone PyNone
                    PyNone Sample.with_file) _ _ Hsome Hdec).
Defined.

Lemma falsy_argument_uses_default_witness :
  Py.truthy (PyInt 0) = false
  ∧ translate Sample.rt Sample.hello PyNone PyNone (PyInt 0) PyNone Sample.online
    = translate Sample.rt Sample.hello PyNone PyNone (PyInt 5) PyNone Sample.online
  ∧ Text.len Sample.hello ≤ 5000
  ∧ Py.is_list (EasyGoogleTranslate.target_language (self Sample.online)) = false
  ∧ Proc.requests_in
      (trace (translate Sample.rt Sample.hello (PyList []) PyNone PyNone PyNone
                Sample.online).2)
    = [Request (Text.lit "https://translate.google.com/m?tl=tr&sl=auto&q=Hello")
         (PyInt 5) PyNone].
Proof.
  assert (Text.len Sample.hello ≤ 5000) as Hshort by (by vm_compute).
  pose proof (falsy_argument_uses_default Sample.rt Sample.hello (PyList []) PyNone (PyInt 0)
                PyNone Sample.online (Text.lit "Hello")) as (_ & _ & _ & Htmo & _ & Hlist).
  split_and!; [done | | done | done |].
  - pose proof (falsy_argument_uses_default Sample.rt Sample.hello PyNone PyNone (PyInt 0)
                  PyNone Sample.online (Text.lit "Hello")) as (_ & _ & _ & H & _).
    exact (H eq_refl).
  - destruct (Hlist Hshort eq_refl eq_refl) as [H _]. exact H.
Defined.

Lemma fan_out_only_for_lists_witness :
  Text.len Sample.hello ≤ 5000
  ∧ Utf8.encode Sample.hello = Some (Text.lit "Hello")
  ∧ Proc.requests_in
      (trace (translate Sample.rt Sample.hello
                (PyTuple [PyStr (Text.lit "tr"); PyStr (Text.lit "fr")]) PyNone PyNone PyNone
                Sample.online).2)
    = [Request (Text.lit "https://translate.google.com/m?tl=('tr', 'fr')&sl=auto&q=Hello")
         (PyInt 5) PyNone]
  ∧ ∃ order,
      order ≡ₚ [PyStr (Text.lit "tr"); PyStr (Text.lit "fr")]
      ∧ Proc.requests_in
          (trace (translate Sample.rt Sample.hello
                    (PyList [PyStr (Text.lit "tr"); PyStr (Text.lit "fr")])
                    PyNone PyNone PyNone Sample.online).2)
        = List.map (λ t, Request
                      (Text.lit "https://translate.google.com/m?tl="
                       ++ Py.str Py.plain_repr t ++ Text.lit "&sl=auto&q=Hello")
                      (PyInt 5) PyNone) order.
Proof.
  assert (Text.len Sample.hello ≤ 5000) as Hshort by (by vm_compute).
  assert (Utf8.encode Sample.hello = Some (Text.lit "Hello")) as Henc by reflexivity.
  split_and!; [done | done | |].
  - destruct (fan_out_only_for_lists Sample.rt Sample.hello
                (PyTuple [PyStr (Text.lit "tr"); PyStr (Text.lit "fr")]) PyNone PyNone PyNone
                Sample.online (Text.lit "Hello") Hshort Henc) as [H _].
    destruct (H eq_refl) as (_ & Hreq & _). exact Hreq.
  - destruct (fan_out_only_for_lists Sample.rt Sample.hello
                (PyList [PyStr (Text.lit "tr"); PyStr (Text.lit "fr")]) PyNone PyNone PyNone
                Sample.online (Text.lit "Hello") Hshort Henc) as [_ H].
    destruct (H _ eq_refl) as [(order & Hperm & Hreq) _].
    exists order. split; [exact Hperm | exact Hreq].
Defined.

(** * Counterexamples *)


(** C5 as written: [timeout=0] is given in the call, yet the request goes
    out with the timeout of the instance, 5. *)
Lemma explicit_zero_timeout_not_used :
  ∃ r, Proc.requests_in
         (trace (translate Sample.rt Sample.hello PyNone PyNone (PyInt 0) PyNone
                   Sample.online).2) = [r]
       ∧ req_timeout r = PyInt 5
       ∧ req_timeout r ≠ PyInt 0.
Proof. eexists. split_and!; [by vm_compute | done | done]. Qed.

(** C9 as written: on a translator whose own target is the list
    [['fr', 'de']], [translate(text, target_language=[])] fans out: two
    requests, and a list of two strings returned. *)
Lemma empty_target_list_fans_out :
  let w := Sample.world_of (net Sample.online) ∅
             (EasyGoogleTranslate.__init__ None
                (Some (PyList [PyStr (Text.lit "fr"); PyStr (Text.lit "de")])) None None) in
  let call := translate Sample.rt Sample.hello (PyList []) PyNone PyNone PyNone w in
  call.1 = Returned (PyList [PyStr (Text.lit "It's fine"); PyStr (Text.lit "It's fine")])
  ∧ Proc.requests_in (trace call.2)
    = [Request (Text.lit "https://translate.google.com/m?tl=fr&sl=auto&q=Hello")
         (PyInt 5) PyNone;
       Request (Text.lit "https://translate.google.com/m?tl=de&sl=auto&q=Hello")
         (PyInt 5) PyNone].
Proof. by vm_compute. Qed.

(** * Examples *)

Example quote_example :
  Url.quote <$> Utf8.encode (Text.lit "a/b c~" ++ [233])
  = Some (Text.lit "a/b%20c~%C3%A9").
Proof. reflexivity. Qed.

Example utf8_example :
  Utf8.encode [233; 0x20AC; 0x1F600; 65]
  = Some [0xC3; 0xA9; 0xE2; 0x82; 0xAC; 0xF0; 0x9F; 0x98; 0x80; 65].
Proof. reflexivity. Qed.

(** A lone surrogate has no UTF-8 encoding: line 94 raises before any
    request is made. *)
Example lone_surrogate_raises :
  make_request Sample.rt (PyStr (Text.lit "tr")) (PyStr (Text.lit "auto")) [0xD800]
    (PyInt 5) PyNone Sample.online
  = (Raised (Text.lit "UnicodeEncodeError"), Sample.online).
Proof. reflexivity. Qed.

Example findall_example :
  Pattern.findall
    (Text.lit "x class=" ++ [34] ++ Text.lit "t0" ++ [34; 62] ++ Text.lit "a" ++ [10]
     ++ Text.lit "b<c class=" ++ [34] ++ Text.lit "result-container" ++ [34; 62]
     ++ Text.lit "d<")
  = [Text.lit "a" ++ [10] ++ Text.lit "b"; Text.lit "d"].
Proof. reflexivity. Qed.

Example unescape_example :
  Html.unescape Html.lookup_sample
    (Text.lit "&ampere &notit; &#x41 &#65;x &#0; &# &#x; & &a; &#128; It&#39;s &lt;b")
  = Some (Text.lit "&ere &notit; A Ax " ++ [65533] ++ Text.lit " &# &#x; & &a; " ++ [8364]
          ++ Text.lit " It's <b").
Proof. reflexivity. Qed.

Example unescape_invalid_example :
  Html.unescape Html.lookup_sample (Text.lit "&#xD800; &#1114112; &#11; &#127; &#x10FFFF;")
  = Some [0xFFFD; 32; 0xFFFD; 32; 32; 32].
Proof. reflexivity. Qed.

(** A body with [class="t0">Bonjour<] gives [Bonjour]. *)
Example extractor_bonjour :
  let body := Text.lit "<p class=" ++ [34] ++ Text.lit "t0" ++ [34; 62]
              ++ Text.lit "Bonjour</p>" in
  (make_request Sample.rt (PyStr (Text.lit "fr")) (PyStr (Text.lit "en")) Sample.hello
     (PyInt 5) PyNone
     (Sample.world_of (λ _, GetResponse (Sample.page 200 body)) ∅ Sample.translator)).1
  = Returned (Text.lit "Bonjour").
Proof. by vm_compute. Qed.

(** A body with [class="result-container">It&#39;s fine<] gives
    [It's fine]. *)
Example extractor_fine :
  (make_request Sample.rt (PyStr (Text.lit "tr")) (PyStr (Text.lit "auto")) Sample.hello
     (PyInt 5) PyNone Sample.online).1
  = Returned (Text.lit "It's fine").
Proof. by vm_compute. Qed.

(** The leftmost opening wins, whichever of the two it is. *)
Example first_match_wins :
  Pattern.findall
    (Text.lit "<b class=" ++ [34] ++ Text.lit "result-container" ++ [34; 62]
     ++ Text.lit "one</b><b class=" ++ [34] ++ Text.lit "t0" ++ [34; 62]
     ++ Text.lit "two</b>")
  = [Text.lit "one"; Text.lit "two"].
Proof. reflexivity. Qed.

(** The results of a fan-out come in the order [as_completed] yields the
    futures, here last first. *)
Example fan_out_example :
  let answer (r : request) :=
    GetResponse (Sample.page 200 (Text.lit "class=" ++ [34] ++ Text.lit "t0" ++ [34; 62]
                                  ++ drop 34 (take 36 (req_url r)) ++ Text.lit "<")) in
  (translate Sample.rt Sample.hello
     (PyList [PyStr (Text.lit "tr"); PyStr (Text.lit "fr"); PyStr (Text.lit "de")])
     PyNone PyNone PyNone (Sample.world_of answer ∅ Sample.translator)).1
  = Returned (PyList [PyStr (Text.lit "de"); PyStr (Text.lit "fr"); PyStr (Text.lit "tr")]).
Proof. by vm_compute. Qed.

(** * Further properties of the code *)

(** ** The codec and the escaped text of line 94 *)

Lemma fmap_cons_Some (c : N) (o : option pystr) s :
  cons c <$> o = Some s → ∃ s', o = Some s' ∧ s = c :: s'.
Proof. destruct o as [s'|]; [|done]. intros [= <-]. eauto. Qed.

(** What the decoder accepts, the encoder gives back. *)
Lemma encode_decode bs : ∀ s, Utf8.decode bs = Some s → Utf8.encode s = Some bs.
Proof.
  remember (length bs) as n eqn:Hn. revert bs Hn.
  induction n as [n IH] using lt_wf_ind. intros bs -> s.
  destruct bs as [|b0 r0]; [by intros [= <-]|].
  cbn [Utf8.decode].
  destruct (N.ltb_spec b0 0x80).
  { intros (s' & Hs' & ->)%fmap_cons_Some. cbn [Utf8.encode].
    rewrite (IH (length r0) ltac:(cbn [length]; lia) r0 eq_refl s' Hs').
    unfold Utf8.encode_cp. destruct (N.ltb_spec b0 0x80); [done|lia]. }
  destruct (N.ltb_spec b0 0xC2); [done|].
  destruct (N.ltb_spec b0 0xE0).
  { destruct r0 as [|b1 r1]; [done|].
    destruct (Utf8.is_cont b1) eqn:Hcont1; [|done].
    intros (s' & Hs' & ->)%fmap_cons_Some. cbn [Utf8.encode].
    rewrite (IH (length r1) ltac:(cbn [length]; lia) r1 eq_refl s' Hs').
    unfold Utf8.is_cont in Hcont1. apply andb_prop in Hcont1 as [?%N.leb_le ?%N.ltb_lt].
    unfold Utf8.encode_cp. split_cmp. cbn [app]. do 2 f_equal; [lia|f_equal; lia]. }
  destruct (N.ltb_spec b0 0xF0).
  { destruct r0 as [|b1 [|b2 r2]]; [done|done|]. cbv zeta.
    destruct (Utf8.is_cont b1) eqn:Hcont1; [|done].
    destruct (Utf8.is_cont b2) eqn:Hcont2; [|done]. cbn [andb].
    destruct (N.leb_spec 0x800 ((b0 - 224) * 4096 + (b1 - 128) * 64 + (b2 - 128)));
      [|done]. cbn [andb].
    destruct (Utf8.is_surrogate _) eqn:Hsur; [done|]. cbn [negb].
    intros (s' & Hs' & ->)%fmap_cons_Some. cbn [Utf8.encode].
    rewrite (IH (length r2) ltac:(cbn [length]; lia) r2 eq_refl s' Hs').
    unfold Utf8.is_cont in Hcont1, Hcont2.
    apply andb_prop in Hcont1 as [?%N.leb_le ?%N.ltb_lt].
    apply andb_prop in Hcont2 as [?%N.leb_le ?%N.ltb_lt].
    unfold Utf8.encode_cp. rewrite Hsur. split_cmp. cbn [app].
    do 2 f_equal; [lia|]. f_equal; [lia|]. f_equal. lia. }
  destruct (N.ltb_spec b0 0xF5); [|done].
  destruct r0 as [|b1 [|b2 [|b3 r3]]]; [done|done|done|]. cbv zeta.
  destruct (Utf8.is_cont b1) eqn:Hcont1; [|done].
  destruct (Utf8.is_cont b2) eqn:Hcont2; [|done].
  destruct (Utf8.is_cont b3) eqn:Hcont3; [|done]. cbn [andb].
  destruct (N.leb_spec 0x10000
              ((b0 - 240) * 262144 + (b1 - 128) * 4096 + (b2 - 128) * 64 + (b3 - 128)));
    [|done]. cbn [andb].
  destruct (N.ltb_spec ((b0 - 240) * 262144 + (b1 - 128) * 4096 + (b2 - 128) * 64
                        + (b3 - 128)) 0x110000); [|done].
  intros (s' & Hs' & ->)%fmap_cons_Some. cbn [Utf8.encode].
  rewrite (IH (length r3) ltac:(cbn [length]; lia) r3 eq_refl s' Hs').
  unfold Utf8.is_cont in Hcont1, Hcont2, Hcont3.
  apply andb_prop in Hcont1 as [?%N.leb_le ?%N.ltb_lt].
  apply andb_prop in Hcont2 as [?%N.leb_le ?%N.ltb_lt].
  apply andb_prop in Hcont3 as [?%N.leb_le ?%N.ltb_lt].
  unfold Utf8.encode_cp. split_cmp. cbn [app].
  do 2 f_equal; [lia|]. f_equal; [lia|]. f_equal; [lia|]. f_equal. lia.
Qed.

(** X1. The UTF-8 codec of lines 94, 99 and 156 is a round trip in both
    directions: a text encodes to [bs] exactly when [bs] decodes to the
    text. So line 99 gives [response.text] back whenever it does not
    raise, and what is read from a file can always be encoded again. *)
Theorem utf8_round_trip s bs : Utf8.encode s = Some bs ↔ Utf8.decode bs = Some s.
Proof. split; [apply decode_encode | apply encode_decode]. Qed.

Lemma encode_cp_length c b :
  Utf8.encode_cp c = Some b → (1 ≤ length b ≤ 4)%nat.
Proof.
  unfold Utf8.encode_cp. intros H.
  repeat case_match; try done; injection H as <-; cbn [length]; lia.
Qed.

Lemma encode_length s bs :
  Utf8.encode s = Some bs → (length s ≤ length bs ≤ 4 * length s)%nat.
Proof.
  revert bs. induction s as [|c s IH]; intros bs; cbn [Utf8.encode].
  - intros [= <-]. cbn. lia.
  - destruct (Utf8.encode_cp c) as [b|] eqn:Hc; [|done].
    destruct (Utf8.encode s) as [bs'|]; [|done].
    intros [= <-]. apply encode_cp_length in Hc. specialize (IH bs' eq_refl).
    rewrite length_app. cbn [length]. lia.
Qed.

Lemma quote_length bs :
  (length bs ≤ length (Url.quote bs) ≤ 3 * length bs)%nat.
Proof.
  rewrite quote_flat_map. induction bs as [|b bs IH]; cbn [flat_map length]; [lia|].
  rewrite length_app. unfold Url.quoter at 1 3.
  destruct (Url.is_safe b); cbn [length]; lia.
Qed.

(** X2. The escaped text of line 94 has at least as many characters as
    the text and at most twelve times as many (four bytes a character,
    three characters a byte); for a text that passes the length check of
    line 127 the [q=] field is at most 60000 characters long. *)
Theorem escaped_text_length text bs :
  Utf8.encode text = Some bs →
  (Text.len text ≤ Text.len (Url.quote bs) ≤ 12 * Text.len text)
  ∧ (Text.len text ≤ 5000 → Text.len (Url.quote bs) ≤ 60000).
Proof.
  intros Henc. apply encode_length in Henc.
  pose proof (quote_length bs). unfold Text.len. lia.
Qed.

(** X3. Two texts with the same escaped text are the same text: the
    [q=] field of line 95 tells the text. *)
Theorem escaped_text_injective t1 t2 b1 b2 :
  Utf8.encode t1 = Some b1 → Utf8.encode t2 = Some b2 →
  Url.quote b1 = Url.quote b2 → t1 = t2.
Proof.
  intros H1 H2 Hq.
  pose proof (percent_decode_quote _ (encode_bytes _ _ H1)) as Hd1.
  pose proof (percent_decode_quote _ (encode_bytes _ _ H2)) as Hd2.
  rewrite Hq, Hd2 in Hd1. injection Hd1 as <-.
  apply decode_encode in H1, H2. congruence.
Qed.

Lemma safe_ascii c : Url.is_safe c = true → c < 0x80.
Proof.
  unfold Url.is_safe, Url.always_safe. intros H.
  destruct (N.ltb_spec c 0x80); [done|].
  exfalso. revert H. split_cmp; cbn [andb orb].
  repeat match goal with
         | |- context [?a =? ?b] => destruct (N.eqb_spec a b); try lia
         end; done.
Qed.

(** X4. A text of unreserved characters (ASCII letters, digits, [_.-~])
    and [/] goes into the URL as it is: it is its own UTF-8 encoding and
    its own escaped text. *)
Theorem safe_text_unchanged text :
  Forall (λ c, Url.is_safe c = true) text →
  Utf8.encode text = Some text ∧ Url.quote text = text.
Proof.
  intros Hsafe. split.
  - induction Hsafe as [|c s Hc _ IH]; [done|]. cbn [Utf8.encode]. rewrite IH.
    unfold Utf8.encode_cp. apply safe_ascii in Hc.
    destruct (N.ltb_spec c 0x80); [done|lia].
  - unfold Url.quote, Url.quote_from_bytes. destruct text as [|c s]; [done|].
    assert (forallb Url.is_safe (c :: s) = true) as ->; [|done].
    apply forallb_forall. intros x Hx%list_elem_of_In.
    by apply (proj1 (Forall_forall _ _) Hsafe).
Qed.

(** ** The scan of line 100 *)

(** X5. After the first match [re.findall] goes on right behind the [<]
    that ended it: the list of line 100 is group 1 of the first match and
    then what the rest of the body gives. *)
Theorem findall_resumes body pre mk cap rest :
  Pattern.first_occurrence body pre mk cap rest →
  Pattern.findall body = cap :: Pattern.findall rest.
Proof.
  revert body. induction pre as [|c pre IH]; intros body [Hocc Hleft].
  - rewrite findall_unfold.
    assert (Pattern.match_at body = Some (cap, rest)) as ->
      by (apply match_at_Some; eauto).
    done.
  - rewrite findall_unfold.
    destruct (Pattern.match_at body) as [[cap' rest']|] eqn:Hm.
    + apply match_at_Some in Hm as [mk' Hocc'].
      apply Hleft in Hocc'. cbn in Hocc'. lia.
    + destruct body as [|c' body]; [by apply occurs_nil in Hocc|].
      destruct (occurs_tail _ _ _ _ _ _ Hm Hocc) as (pre' & [= <- <-] & Hocc').
      apply IH. split; [done|]. intros pre'' mk'' cap'' rest'' H''.
      apply (occurs_cons c) in H''. apply Hleft in H''. cbn in H''. lia.
Qed.

(** X6. No string that [re.findall] returns at line 100 holds a [<]: what
    goes to [html.unescape] ends before the next tag. *)
Theorem findall_captures_without_lt body cap :
  cap ∈ Pattern.findall body → Text.lt_char ∉ cap.
Proof.
  remember (length body) as n eqn:Hn. revert body Hn.
  induction n as [n IH] using lt_wf_ind. intros body ->.
  rewrite findall_unfold.
  destruct (Pattern.match_at body) as [[cap' rest']|] eqn:Hm.
  - intros [-> | Hin]%elem_of_cons.
    + by apply match_at_Some in Hm as [mk (_ & _ & Hnot)].
    + apply match_at_shorter in Hm. by apply (IH (length rest') Hm rest').
  - destruct body as [|c body]; [by intros ?%elem_of_nil|].
    apply (IH (length body)); [cbn [length]; lia | done].
Qed.

(** X7. A body without any [<] has no match, whatever it holds: an
    opening that no tag follows gives nothing. *)
Theorem findall_needs_lt body :
  Text.lt_char ∉ body → Pattern.findall body = [].
Proof.
  intros Hnot. apply findall_nil. intros (pre & mk & cap & rest & -> & _ & _).
  apply Hnot. rewrite !elem_of_app. right. right. right. left.
Qed.

(** ** How the calls end, and what they leave alone *)


(** Binding and sequencing keep what every step keeps. *)
Lemma bind_keeps (P : world → world → Prop) {A B} (m : Proc.M A) (k : A → Proc.M B) w :
  (∀ w1 w2 w3, P w1 w2 → P w2 w3 → P w1 w3) →
  P w (m w).2 → (∀ a w1, P w1 (k a w1).2) → P w ((m ≫= k) w).2.
Proof.
  intros Htrans Hm Hk. unfold mbind, Proc.M_bind, Proc.bind.
  destruct (m w) as [[a|c|e] w1]; cbn [snd] in *; try done.
  by apply (Htrans _ w1).
Qed.

Lemma sequence_keeps (P : world → world → Prop) {A} (ms : list (Proc.M A)) :
  (∀ w, P w w) → (∀ w1 w2 w3, P w1 w2 → P w2 w3 → P w1 w3) →
  (∀ m, m ∈ ms → ∀ w, P w (m w).2) →
  ∀ w, P w (Proc.sequence ms w).2.
Proof.
  intros Hrefl Htrans. induction ms as [|m ms IH]; intros Hall w.
  - apply Hrefl.
  - cbn [Proc.sequence]. apply bind_keeps; [done | apply Hall; left |].
    intros a w1. apply bind_keeps; [done | apply IH | intros; apply Hrefl].
    intros m' Hm'. apply Hall. by right.
Qed.





Section More.

Context (rt : runtime).

(** What ends [make_request] depends on the world through the network
    alone. *)
Lemma make_request_outcome_net tl sl text tmo px w1 w2 :
  net w1 = net w2 →
  (make_request rt tl sl text tmo px w1).1 = (make_request rt tl sl text tmo px w2).1.
Proof.
  intros Hnet. destruct (Utf8.encode text) as [bs|] eqn:Henc.
  - rewrite !(make_request_sent _ _ _ _ _ _ _ _ Henc). cbv zeta. rewrite Hnet.
    destruct (net w2 _) as [r|e|exn]; [|done|done].
    destruct (raise_for_status r); [done|].
    destruct (Utf8.encode (resp_text r)); [|done].
    by destruct (Pattern.findall (resp_text r)).
  - by rewrite !make_request_unencodable.
Qed.

(** [make_request] leaves the process by [exit(1)] or not at all. *)
Lemma make_request_exit_status tl sl text tmo px w c :
  (make_request rt tl sl text tmo px w).1 = Exited c → c = 1%Z.
Proof.
  destruct (Utf8.encode text) as [bs|] eqn:Henc.
  - rewrite (make_request_sent _ _ _ _ _ _ _ _ Henc). cbv zeta.
    destruct (net w _) as [r|msg|exn]; cbn [fst]; [|by intros [= <-]|done].
    destruct (raise_for_status r); cbn [fst]; [by intros [= <-]|].
    destruct (Utf8.encode (resp_text r)); cbn [fst]; [|done].
    destruct (Pattern.findall (resp_text r)) as [|first more]; cbn [fst];
      [by intros [= <-]|].
    by destruct (html_unescape rt first).
  - by rewrite make_request_unencodable.
Qed.


(** What the futures hold after the pool has run: for each, what
    [make_request] ends with for its target. *)
Lemma run_tasks_outcomes sl text tmo px (l : list (nat * pyval)) w :
  ∃ w',
    Proc.sequence (List.map (run_task rt sl text tmo px) l) w
    = (Returned ((λ f : nat * pyval,
                    (f.1, (make_request rt f.2 sl text tmo px w).1)) <$> l), w')
    ∧ net w' = net w.
Proof.
  revert w. induction l as [|f l IH]; intros w.
  - exists w. by cbn.
  - cbn [List.map Proc.sequence fmap list_fmap].
    unfold mbind, mret, Proc.M_bind, Proc.M_ret, Proc.bind, Proc.ret.
    rewrite run_task_run. cbv beta.
    pose proof (make_request_frame rt f.2 sl text tmo px w) as [Hnet _].
    destruct (IH (make_request rt f.2 sl text tmo px w).2) as (w' & -> & Hnet').
    exists w'. split; [|congruence].
    do 3 f_equal. apply list_fmap_ext. intros i g _. cbn. f_equal.
    by apply make_request_outcome_net.
Qed.

Lemma results_of_Returned {A} (l : list (outcome A)) rs :
  Proc.results_of l = Returned rs → l = Returned <$> rs.
Proof.
  revert rs. induction l as [|[a|c|e] l IH]; intros rs; cbn [Proc.results_of]; try done.
  - by intros [= <-].
  - destruct (Proc.results_of l) as [x| |]; try done.
    intros [= <-]. cbn. f_equal. by apply IH.
Qed.

Lemma results_of_Exited {A} (l : list (outcome A)) c :
  Proc.results_of l = Exited c → Exited c ∈ l.
Proof.
  induction l as [|[a|c'|e] l IH]; cbn [Proc.results_of]; try done.
  - destruct (Proc.results_of l) as [x|c'|e] eqn:Hl; try done.
    intros [= ->]. right. by apply IH.
  - intros [= ->]. left.
Qed.

Lemma results_of_Raised {A} (l : list (outcome A)) e :
  Proc.results_of l = Raised e → Raised e ∈ l.
Proof.
  induction l as [|[a|c|e'] l IH]; cbn [Proc.results_of]; try done.
  - destruct (Proc.results_of l) as [x|c|e'] eqn:Hl; try done.
    intros [= ->]. right. by apply IH.
  - intros [= ->]. left.
Qed.

(** What ends the fan-out: the results of the futures, taken in the order
    [as_completed] yields them. *)
Lemma fan_out_outcome_eq targets sl text tmo px w :
  (fan_out rt targets sl text tmo px w).1
  = match Proc.results_of
            (as_completed rt
               ((λ f : nat * pyval, (f.1, (make_request rt f.2 sl text tmo px w).1))
                <$> run_order rt (zip (seq 0 (length targets)) targets))).*2 with
    | Returned rs => Returned (PyList (PyStr <$> rs))
    | Exited c => Exited c
    | Raised e => Raised e
    end.
Proof.
  unfold fan_out. cbv zeta.
  destruct (run_tasks_outcomes sl text tmo px
              (run_order rt (zip (seq 0 (length targets)) targets)) w)
    as (w' & Hrun & _).
  unfold mbind, mret, Proc.M_bind, Proc.M_ret, Proc.bind, Proc.ret.
  rewrite Hrun, sequence_result.
  by destruct (Proc.results_of _).
Qed.

Lemma fan_out_outcome targets sl text tmo px w :
  ∃ l, l ≡ₚ (λ t, (make_request rt t sl text tmo px w).1) <$> targets
    ∧ (fan_out rt targets sl text tmo px w).1
      = match Proc.results_of l with
        | Returned rs => Returned (PyList (PyStr <$> rs))
        | Exited c => Exited c
        | Raised e => Raised e
        end.
Proof.
  eexists. split; [|apply fan_out_outcome_eq].
  set (futures := zip (seq 0 (length targets)) targets).
  assert (futures.*2 = targets) as Hsnd
    by (apply snd_zip; rewrite length_seq; lia).
  rewrite (as_completed_perm rt _).
  rewrite <- list_fmap_compose, <- Hsnd, <- list_fmap_compose.
  exact (fmap_Permutation ((λ t : pyval, (make_request rt t sl text tmo px w).1) ∘ snd)
           _ _ (run_order_perm rt futures)).
Qed.




Lemma translate_file_missing path tl sl tmo px w :
  fs w !! path = None →
  translate_file rt path tl sl tmo px w = (Exited 1, Proc.log (EvPrint bad_path) w).
Proof.
  intros Hnone. unfold translate_file, Proc.os_path_isfile. run.
  rewrite Hnone. by rewrite bool_decide_eq_false_2 by (by intros [? [=]]).
Qed.

Lemma translate_file_found path tl sl tmo px w bs :
  fs w !! path = Some bs →
  translate_file rt path tl sl tmo px w
  = match Utf8.decode bs with
    | Some text => translate rt (Utf8.universal_newlines text) tl sl tmo px
                     (Proc.log (EvRead path) w)
    | None => (Raised (Text.lit "UnicodeDecodeError"), Proc.log (EvRead path) w)
    end.
Proof.
  intros Hsome. unfold translate_file, Proc.os_path_isfile. run.
  rewrite Hsome. rewrite bool_decide_eq_true_2 by eauto. cbn [negb].
  unfold Proc.read_text, Proc.bytes_decode. run. cbn [Proc.log fs].
  rewrite Hsome. destruct (Utf8.decode bs); by run.
Qed.


End More.

(** Reading in text mode keeps what holds of every character and of the
    line feed, and changes nothing where there is no carriage return. *)
Lemma universal_newlines_Forall (P : N → Prop) s :
  P 10 → Forall P s → Forall P (Utf8.universal_newlines s).
Proof.
  intros H10. remember (length s) as n eqn:Hn. revert s Hn.
  induction n as [n IH] using lt_wf_ind. intros s -> Hs.
  destruct s as [|c r]; [done|]. apply Forall_cons in Hs as [Hc Hr].
  cbn [Utf8.universal_newlines]. destruct (c =? 13).
  - constructor; [done|]. destruct r as [|c2 r2]; [done|].
    apply Forall_cons in Hr as [Hc2 Hr2]. destruct (c2 =? 10).
    + apply (IH (length r2)); [cbn [length]; lia | done | done].
    + apply (IH (length (c2 :: r2))); [cbn [length]; lia | done | by constructor].
  - constructor; [done|]. apply (IH (length r)); [cbn [length]; lia | done | done].
Qed.

Lemma universal_newlines_no_cr s : 13 ∉ s → Utf8.universal_newlines s = s.
Proof.
  induction s as [|c r IH]; [done|]. intros [Hc Hr]%not_elem_of_cons.
  cbn [Utf8.universal_newlines]. destruct (N.eqb_spec c 13); [congruence|].
  by rewrite IH.
Qed.

Section Further.

Context (rt : runtime).

(** X8. [make_request] leaves the process with status 1 or not at all,
    and it returns in one way only: the text had a UTF-8 encoding, the one
    request was answered with a status that [raise_for_status] lets
    through, the body could be encoded, the pattern matched, and
    [html.unescape] returned for group 1 of the first match; what comes
    back is that decoded string, and the request is all the call has
    done: nothing printed, no file written. *)
Theorem make_request_exits_and_returns tl sl text tmo px w :
  (∀ c, (make_request rt tl sl text tmo px w).1 = Exited c → c = 1%Z)
  ∧ (∀ s, (make_request rt tl sl text tmo px w).1 = Returned s →
       ∃ bs r first more,
         Utf8.encode text = Some bs
         ∧ net w (request_of rt tl sl bs tmo px) = GetResponse r
         ∧ raise_for_status r = None
         ∧ Utf8.well_formed (resp_text r)
         ∧ Pattern.findall (resp_text r) = first :: more
         ∧ html_unescape rt first = Some s
         ∧ trace (make_request rt tl sl text tmo px w).2
           = trace w ++ [EvGet (request_of rt tl sl bs tmo px)]
         ∧ fs (make_request rt tl sl text tmo px w).2 = fs w).
Proof.
  split; [intros c; apply make_request_exit_status|].
  intros s. destruct (Utf8.encode text) as [bs|] eqn:Henc.
  - rewrite (make_request_sent _ _ _ _ _ _ _ _ Henc). cbv zeta.
    destruct (net w _) as [r|msg|exn] eqn:Hnet; cbn [fst]; [|done|done].
    destruct (raise_for_status r) eqn:Hok; cbn [fst]; [done|].
    destruct (Utf8.encode (resp_text r)) as [enc|] eqn:Hbody; cbn [fst]; [|done].
    destruct (Pattern.findall (resp_text r)) as [|first more] eqn:Hfind; cbn [fst];
      [done|].
    destruct (html_unescape rt first) as [translation|] eqn:Hun; cbn [fst snd]; [|done].
    intros [= <-]. exists bs, r, first, more.
    split_and!; try done. apply encode_well_formed. eauto.
  - by rewrite make_request_unencodable.
Qed.

(** X9. Whatever the arguments and the world, when [translate] or
    [translate_file] ends the process, the exit status is 1. *)
Theorem exit_status_is_one path text tl sl tmo px w c :
  ((translate rt text tl sl tmo px w).1 = Exited c → c = 1%Z)
  ∧ ((translate_file rt path tl sl tmo px w).1 = Exited c → c = 1%Z).
Proof.
  assert (∀ text w, (translate rt text tl sl tmo px w).1 = Exited c → c = 1%Z) as Htr.
  { clear text w. intros text w.
    destruct (N.ltb_spec 5000 (Text.len text)) as [Hlong|Hshort].
    { rewrite (translate_long _ _ _ _ _ _ _ Hlong). by intros [= <-]. }
    rewrite (translate_short _ _ _ _ _ _ _ Hshort).
    set (tgt := Py.or tl _). set (src := Py.or sl _).
    set (tmo' := Py.or tmo _). set (px' := Py.or px _).
    destruct (Py.is_list tgt) eqn:Hl.
    - destruct tgt as [| | | |targets| |]; try done. cbn [dispatch].
      destruct (fan_out_outcome rt targets src text tmo' px' w) as (l & Hperm & ->).
      destruct (Proc.results_of l) as [rs|c'|e] eqn:Hres; try done.
      intros [= ->]. apply results_of_Exited in Hres.
      rewrite Hperm in Hres. apply list_elem_of_fmap in Hres as (t & Ht & _).
      symmetry in Ht. by apply make_request_exit_status in Ht.
    - rewrite (dispatch_single _ _ _ _ _ _ Hl), fmap_run.
      pose proof (make_request_exit_status rt tgt src text tmo' px' w c) as Hex.
      destruct (make_request rt tgt src text tmo' px' w) as [[a|c'|e] w']; try done.
      intros [= ->]. by apply Hex. }
  split; [apply Htr|].
  destruct (fs w !! path) as [bs|] eqn:Hfs.
  - rewrite (translate_file_found _ _ _ _ _ _ _ _ Hfs).
    destruct (Utf8.decode bs); [apply Htr | done].
  - rewrite (translate_file_missing _ _ _ _ _ _ _ Hfs). by intros [= <-].
Qed.

Lemma same_requests_refl w : Obs.same_requests w w.
Proof. done. Qed.

Lemma same_requests_trans w1 w2 w3 :
  Obs.same_requests w1 w2 → Obs.same_requests w2 w3 → Obs.same_requests w1 w3.
Proof. unfold Obs.same_requests. congruence. Qed.

(** X10. A text that has no UTF-8 encoding (a lone surrogate) makes line
    94 raise [UnicodeEncodeError]: [make_request] leaves the world as it
    found it, [translate] sends no request for any target, and for a
    single target it ends with that exception and nothing printed. *)
Theorem unencodable_text_raises text tl sl tmo px w :
  Utf8.encode text = None →
  make_request rt tl sl text tmo px w = (Raised (Text.lit "UnicodeEncodeError"), w)
  ∧ Obs.same_requests w (translate rt text tl sl tmo px w).2
  ∧ (Text.len text ≤ 5000 →
     Py.is_list (Py.or tl (EasyGoogleTranslate.target_language (self w))) = false →
     translate rt text tl sl tmo px w = (Raised (Text.lit "UnicodeEncodeError"), w)).
Proof.
  intros Henc. split_and!.
  - by apply make_request_unencodable.
  - destruct (N.ltb_spec 5000 (Text.len text)) as [Hlong|Hshort].
    { rewrite (translate_long _ _ _ _ _ _ _ Hlong). unfold Obs.same_requests.
      cbn [snd Proc.log trace]. by rewrite requests_in_log, app_nil_r. }
    rewrite (translate_short _ _ _ _ _ _ _ Hshort).
    set (tgt := Py.or tl _). destruct (Py.is_list tgt) eqn:Hl.
    + destruct tgt as [| | | |targets| |]; try done. cbn [dispatch].
      unfold fan_out. cbv zeta. apply bind_keeps; [apply same_requests_trans | |].
      * apply sequence_keeps; [done | apply same_requests_trans |].
        intros m (f & <- & _)%list_elem_of_In%in_map_iff w0.
        rewrite run_task_run. by rewrite make_request_unencodable.
      * intros done w1. apply bind_keeps; [apply same_requests_trans | | done].
        by rewrite sequence_result.
    + rewrite (dispatch_single _ _ _ _ _ _ Hl), fmap_run.
      by rewrite make_request_unencodable.
  - intros Hshort Hl. rewrite (translate_short _ _ _ _ _ _ _ Hshort).
    rewrite (dispatch_single _ _ _ _ _ _ Hl), fmap_run.
    by rewrite make_request_unencodable.
Qed.

(** X11. When the page that came back holds a character without a UTF-8
    encoding, line 99 raises [UnicodeEncodeError]: the request has been
    sent, nothing is printed, [error.txt] is not written, and the pattern
    is never looked for. *)
Theorem unencodable_body_raises tl sl text tmo px w bs r :
  Utf8.encode text = Some bs →
  net w (request_of rt tl sl bs tmo px) = GetResponse r →
  raise_for_status r = None →
  Utf8.encode (resp_text r) = None →
  make_request rt tl sl text tmo px w
  = (Raised (Text.lit "UnicodeEncodeError"),
     Proc.log (EvGet (request_of rt tl sl bs tmo px)) w).
Proof.
  intros Henc Hnet Hok Hbody.
  rewrite (make_request_sent _ _ _ _ _ _ _ _ Henc). cbv zeta.
  by rewrite Hnet, Hok, Hbody.
Qed.

(** X12. An exception of [requests.get] that is no [RequestException]
    passes the [except] clause of line 107: [translate] for a single
    target ends with that exception, after the one request, with nothing
    printed and no exit. *)
Theorem other_error_propagates text tl sl tmo px w bs exn :
  Text.len text ≤ 5000 →
  Utf8.encode text = Some bs →
  let tgt := Py.or tl (EasyGoogleTranslate.target_language (self w)) in
  let src := Py.or sl (EasyGoogleTranslate.source_language (self w)) in
  let tmo' := Py.or tmo (EasyGoogleTranslate.timeout (self w)) in
  let px' := Py.or px (EasyGoogleTranslate.proxies (self w)) in
  Py.is_list tgt = false →
  net w (request_of rt tgt src bs tmo' px') = GetOtherError exn →
  translate rt text tl sl tmo px w
  = (Raised exn, Proc.log (EvGet (request_of rt tgt src bs tmo' px')) w).
Proof.
  intros Hshort Henc tgt src tmo' px' Hl Hnet.
  rewrite (translate_short _ _ _ _ _ _ _ Hshort). fold tgt src tmo' px'.
  rewrite (dispatch_single _ _ _ _ _ _ Hl), fmap_run.
  rewrite (make_request_sent _ _ _ _ _ _ _ _ Henc). cbv zeta. by rewrite Hnet.
Qed.

(** X13. What a fan-out returns is, up to order, what [make_request]
    returns for each target of the list: one string per target, each the
    answer to that target's request, none lost and none twice. *)
Theorem fan_out_results_permuted text tl sl tmo px w targets v :
  Text.len text ≤ 5000 →
  let src := Py.or sl (EasyGoogleTranslate.source_language (self w)) in
  let tmo' := Py.or tmo (EasyGoogleTranslate.timeout (self w)) in
  let px' := Py.or px (EasyGoogleTranslate.proxies (self w)) in
  Py.or tl (EasyGoogleTranslate.target_language (self w)) = PyList targets →
  (translate rt text tl sl tmo px w).1 = Returned v →
  ∃ rs, v = PyList (PyStr <$> rs)
    ∧ (Returned <$> rs) ≡ₚ (λ t, (make_request rt t src text tmo' px' w).1) <$> targets.
Proof.
  intros Hshort src tmo' px' Htgt.
  rewrite (translate_short _ _ _ _ _ _ _ Hshort), Htgt. fold src tmo' px'.
  cbn [dispatch].
  destruct (fan_out_outcome rt targets src text tmo' px' w) as (l & Hperm & ->).
  destruct (Proc.results_of l) as [rs|c|e] eqn:Hres; try done.
  intros [= <-]. exists rs. split; [done|].
  apply results_of_Returned in Hres. by rewrite <- Hres.
Qed.

(** X14. With an empty list as the resolved target (the instance holds
    [[]] and the call gives no truthy target) [translate] returns the
    empty list at once: no request, nothing printed, the world as it was. *)
Theorem empty_target_list_returns_empty text tl sl tmo px w :
  Text.len text ≤ 5000 →
  Py.truthy tl = false →
  EasyGoogleTranslate.target_language (self w) = PyList [] →
  translate rt text tl sl tmo px w = (Returned (PyList []), w).
Proof.
  intros Hshort Htl Hinst. rewrite (translate_short _ _ _ _ _ _ _ Hshort).
  unfold Py.or at 1. rewrite Htl, Hinst. cbn [dispatch].
  unfold fan_out. cbn [length seq zip zip_with].
  rewrite (proj1 (Permutation_nil_r _) (run_order_perm rt [])). cbn [List.map Proc.sequence].
  run. by rewrite (proj1 (Permutation_nil_r _) (as_completed_perm rt [])).
Qed.



(** X17. The limit of line 127 counts the characters of the file as read
    in text mode, not its bytes: a UTF-8 file whose text has more than
    5000 characters is read, reported as too long, and the process exits
    with status 1 without any request. *)
Theorem translate_file_too_long path tl sl tmo px w bs text :
  fs w !! path = Some bs →
  Utf8.decode bs = Some text →
  5000 < Text.len (Utf8.universal_newlines text) →
  translate_file rt path tl sl tmo px w
  = (Exited 1,
     Proc.log (EvPrint (too_long (Utf8.universal_newlines text)))
       (Proc.log (EvRead path) w)).
Proof.
  intros Hfs Hdec Hlong. rewrite (translate_file_found _ _ _ _ _ _ _ _ Hfs), Hdec.
  by rewrite (translate_long _ _ _ _ _ _ _ Hlong).
Qed.

(** X18. A regular file whose bytes are not UTF-8 makes the read of line
    157 raise [UnicodeDecodeError]: the file has been opened, nothing is
    printed, no request is sent and the process does not exit by
    [exit(1)]. *)
Theorem translate_file_not_utf8 path tl sl tmo px w bs :
  fs w !! path = Some bs →
  Utf8.decode bs = None →
  translate_file rt path tl sl tmo px w
  = (Raised (Text.lit "UnicodeDecodeError"), Proc.log (EvRead path) w).
Proof.
  intros Hfs Hdec. by rewrite (translate_file_found _ _ _ _ _ _ _ _ Hfs), Hdec.
Qed.

(** X19. The text of a UTF-8 file can always be encoded again, so for a
    file of at most 5000 characters and a single target [translate_file]
    always gets as far as the request, and sends exactly one. Its [q=]
    field is the escaped encoding of the text read; for a file without
    carriage returns that is the escaped bytes of the file itself. *)
Theorem translate_file_sends_file_text path tl sl tmo px w bs text :
  fs w !! path = Some bs →
  Utf8.decode bs = Some text →
  Text.len (Utf8.universal_newlines text) ≤ 5000 →
  let tgt := Py.or tl (EasyGoogleTranslate.target_language (self w)) in
  let src := Py.or sl (EasyGoogleTranslate.source_language (self w)) in
  let tmo' := Py.or tmo (EasyGoogleTranslate.timeout (self w)) in
  let px' := Py.or px (EasyGoogleTranslate.proxies (self w)) in
  Py.is_list tgt = false →
  ∃ enc,
    Utf8.encode (Utf8.universal_newlines text) = Some enc
    ∧ Proc.requests_in (trace (translate_file rt path tl sl tmo px w).2)
      = Proc.requests_in (trace w) ++ [request_of rt tgt src enc tmo' px']
    ∧ (13 ∉ text → enc = bs).
Proof.
  intros Hfs Hdec Hshort tgt src tmo' px' Hl.
  assert (Utf8.well_formed (Utf8.universal_newlines text)) as Hwf.
  { apply universal_newlines_Forall; [done|].
    apply encode_well_formed. exists bs. by apply encode_decode. }
  apply encode_well_formed in Hwf as [enc Henc]. exists enc. split_and!; [done| |].
  - rewrite (translate_file_found _ _ _ _ _ _ _ _ Hfs), Hdec.
    rewrite (translate_short _ _ _ _ _ _ _ Hshort). cbn [Proc.log self].
    fold tgt src tmo' px'. rewrite (dispatch_single _ _ _ _ _ _ Hl), fmap_run.
    pose proof (make_request_requests rt tgt src (Utf8.universal_newlines text)
                  tmo' px' (Proc.log (EvRead path) w) enc Henc) as Hreq.
    destruct (make_request rt tgt src _ tmo' px' _) as [[a|c|e] w'];
      cbn [snd] in *; rewrite Hreq; cbn [Proc.log trace];
      by rewrite requests_in_log, app_nil_r.
  - intros Hcr. rewrite (universal_newlines_no_cr _ Hcr) in Henc.
    apply encode_decode in Hdec. congruence.
Qed.


End Further.

(** ** The further properties on the sample data *)

Lemma utf8_round_trip_witness :
  Utf8.encode [233; 0x20AC] = Some [0xC3; 0xA9; 0xE2; 0x82; 0xAC]
  ∧ Utf8.decode [0xC3; 0xA9; 0xE2; 0x82; 0xAC] = Some [233; 0x20AC].
Proof.
  split; [reflexivity|].
  exact (proj1 (utf8_round_trip [233; 0x20AC] [0xC3; 0xA9; 0xE2; 0x82; 0xAC]) eq_refl).
Defined.

Lemma escaped_text_length_witness :
  Utf8.encode [233; 0x20AC] = Some [0xC3; 0xA9; 0xE2; 0x82; 0xAC]
  ∧ (Text.len [233; 0x20AC] ≤ Text.len (Url.quote [0xC3; 0xA9; 0xE2; 0x82; 0xAC])
     ≤ 12 * Text.len [233; 0x20AC]).
Proof.
  split; [reflexivity|].
  exact (proj1 (escaped_text_length [233; 0x20AC] [0xC3; 0xA9; 0xE2; 0x82; 0xAC] eq_refl)).
Defined.

Lemma escaped_text_injective_witness :
  Utf8.encode Sample.hello = Some (Text.lit "Hello")
  ∧ Url.quote (Text.lit "Hello") = Url.quote (Text.lit "Hello")
  ∧ Sample.hello = Text.lit "Hello".
Proof.
  split_and!; [reflexivity | reflexivity |].
  exact (escaped_text_injective Sample.hello (Text.lit "Hello") (Text.lit "Hello")
           (Text.lit "Hello") eq_refl eq_refl eq_refl).
Defined.

Lemma safe_text_unchanged_witness :
  Forall (λ c, Url.is_safe c = true) (Text.lit "a/b-c")
  ∧ Utf8.encode (Text.lit "a/b-c") = Some (Text.lit "a/b-c")
  ∧ Url.quote (Text.lit "a/b-c") = Text.lit "a/b-c".
Proof.
  assert (Forall (λ c, Url.is_safe c = true) (Text.lit "a/b-c")) as Hsafe
    by (repeat constructor).
  split; [exact Hsafe|]. exact (safe_text_unchanged (Text.lit "a/b-c") Hsafe).
Defined.

Lemma findall_resumes_witness :
  ∃ pre mk cap rest,
    Pattern.first_occurrence Sample.body_fine pre mk cap rest
    ∧ Pattern.findall Sample.body_fine = cap :: Pattern.findall rest.
Proof.
  assert (Pattern.matches Sample.body_fine) as Hm.
  { exists (Text.lit "<div "), Pattern.opening_result_container,
      (Text.lit "It&#39;s fine"), (Text.lit "/div>").
    split_and!; [reflexivity | by right |].
    refine (bool_decide_unpack _ _). by vm_compute. }
  destruct (matches_first _ Hm) as (pre & mk & cap & rest & Hfirst).
  exists pre, mk, cap, rest. split; [exact Hfirst|].
  exact (findall_resumes _ _ _ _ _ Hfirst).
Defined.

Lemma findall_captures_without_lt_witness :
  Text.lit "It&#39;s fine" ∈ Pattern.findall Sample.body_fine
  ∧ Text.lt_char ∉ Text.lit "It&#39;s fine".
Proof.
  assert (Text.lit "It&#39;s fine" ∈ Pattern.findall Sample.body_fine) as Hin.
  { refine (bool_decide_unpack _ _). by vm_compute. }
  split; [exact Hin|].
  exact (findall_captures_without_lt _ _ Hin).
Defined.

Lemma findall_needs_lt_witness :
  Text.lt_char ∉ Text.lit "class=t0 Bonjour"
  ∧ Pattern.findall (Text.lit "class=t0 Bonjour") = [].
Proof.
  assert (Text.lt_char ∉ Text.lit "class=t0 Bonjour") as Hnot.
  { refine (bool_decide_unpack _ _). by vm_compute. }
  split; [exact Hnot|]. exact (findall_needs_lt _ Hnot).
Defined.

Lemma make_request_exits_and_returns_witness :
  (make_request Sample.rt (PyStr (Text.lit "tr")) (PyStr (Text.lit "auto")) Sample.hello
     (PyInt 5) PyNone Sample.online).1 = Returned (Text.lit "It's fine")
  ∧ ∃ bs r first more,
      Utf8.encode Sample.hello = Some bs
      ∧ net Sample.online (request_of Sample.rt (PyStr (Text.lit "tr"))
                             (PyStr (Text.lit "auto")) bs (PyInt 5) PyNone)
        = GetResponse r
      ∧ raise_for_status r = None
      ∧ Utf8.well_formed (resp_text r)
      ∧ Pattern.findall (resp_text r) = first :: more
      ∧ html_unescape Sample.rt first = Some (Text.lit "It's fine")
      ∧ trace (make_request Sample.rt (PyStr (Text.lit "tr")) (PyStr (Text.lit "auto"))
                 Sample.hello (PyInt 5) PyNone Sample.online).2
        = trace Sample.online
          ++ [EvGet (request_of Sample.rt (PyStr (Text.lit "tr"))
                       (PyStr (Text.lit "auto")) bs (PyInt 5) PyNone)]
      ∧ fs (make_request Sample.rt (PyStr (Text.lit "tr")) (PyStr (Text.lit "auto"))
              Sample.hello (PyInt 5) PyNone Sample.online).2
        = fs Sample.online.
Proof.
  assert ((make_request Sample.rt (PyStr (Text.lit "tr")) (PyStr (Text.lit "auto"))
             Sample.hello (PyInt 5) PyNone Sample.online).1
          = Returned (Text.lit "It's fine")) as Hret by (by vm_compute).
  split; [exact Hret|].
  exact (proj2 (make_request_exits_and_returns Sample.rt _ _ _ _ _ _) _ Hret).
Defined.

Lemma exit_status_is_one_witness :
  (translate_file Sample.rt Sample.text_txt PyNone PyNone PyNone PyNone Sample.online).1
  = Exited 1
  ∧ (1 = 1)%Z.
Proof.
  assert ((translate_file Sample.rt Sample.text_txt PyNone PyNone PyNone PyNone
             Sample.online).1 = Exited 1) as Hex by reflexivity.
  split; [exact Hex|].
  exact (proj2 (exit_status_is_one Sample.rt Sample.text_txt Sample.hello PyNone PyNone
                  PyNone PyNone Sample.online 1%Z) Hex).
Defined.

Lemma unencodable_text_raises_witness :
  Utf8.encode Edge.lone_surrogate = None
  ∧ Text.len Edge.lone_surrogate ≤ 5000
  ∧ translate Sample.rt Edge.lone_surrogate PyNone PyNone PyNone PyNone Sample.online
    = (Raised (Text.lit "UnicodeEncodeError"), Sample.online).
Proof.
  assert (Text.len Edge.lone_surrogate ≤ 5000) as Hshort by (by vm_compute).
  split_and!; [reflexivity | exact Hshort |].
  destruct (unencodable_text_raises Sample.rt Edge.lone_surrogate PyNone PyNone PyNone
              PyNone Sample.online eq_refl) as (_ & _ & H).
  exact (H Hshort eq_refl).
Defined.

Lemma unencodable_body_raises_witness :
  Utf8.encode (resp_text (Sample.page 200 Edge.lone_surrogate)) = None
  ∧ make_request Sample.rt (PyStr (Text.lit "tr")) (PyStr (Text.lit "auto")) Sample.hello
      (PyInt 5) PyNone Edge.garbled
    = (Raised (Text.lit "UnicodeEncodeError"),
       Proc.log (EvGet (request_of Sample.rt (PyStr (Text.lit "tr"))
                          (PyStr (Text.lit "auto")) (Text.lit "Hello") (PyInt 5) PyNone))
         Edge.garbled).
Proof.
  split; [reflexivity|].
  exact (unencodable_body_raises Sample.rt (PyStr (Text.lit "tr"))
           (PyStr (Text.lit "auto")) Sample.hello (PyInt 5) PyNone Edge.garbled
           (Text.lit "Hello") (Sample.page 200 Edge.lone_surrogate)
           eq_refl eq_refl eq_refl eq_refl).
Defined.

Lemma other_error_propagates_witness :
  Text.len Sample.hello ≤ 5000
  ∧ translate Sample.rt Sample.hello PyNone PyNone (PyInt 0) PyNone Edge.refusing
    = (Raised (Text.lit "ValueError"),
       Proc.log (EvGet (request_of Sample.rt (PyStr (Text.lit "tr"))
                          (PyStr (Text.lit "auto")) (Text.lit "Hello") (PyInt 5) PyNone))
         Edge.refusing).
Proof.
  assert (Text.len Sample.hello ≤ 5000) as Hshort by (by vm_compute).
  split; [exact Hshort|].
  exact (other_error_propagates Sample.rt Sample.hello PyNone PyNone (PyInt 0) PyNone
           Edge.refusing (Text.lit "Hello") (Text.lit "ValueError")
           Hshort eq_refl eq_refl eq_refl).
Defined.

Lemma fan_out_results_permuted_witness :
  let targets := [PyStr (Text.lit "tr"); PyStr (Text.lit "fr"); PyStr (Text.lit "de")] in
  (translate Sample.rt Sample.hello (PyList targets) PyNone PyNone PyNone Edge.echo).1
  = Returned (PyList [PyStr (Text.lit "de"); PyStr (Text.lit "fr"); PyStr (Text.lit "tr")])
  ∧ ∃ rs,
      PyList [PyStr (Text.lit "de"); PyStr (Text.lit "fr"); PyStr (Text.lit "tr")]
      = PyList (PyStr <$> rs)
      ∧ (Returned <$> rs)
        ≡ₚ (λ t, (make_request Sample.rt t (PyStr (Text.lit "auto")) Sample.hello
                    (PyInt 5) PyNone Edge.echo).1) <$> targets.
Proof.
  intros targets.
  assert (Text.len Sample.hello ≤ 5000) as Hshort by (by vm_compute).
  assert ((translate Sample.rt Sample.hello (PyList targets) PyNone PyNone PyNone
             Edge.echo).1
          = Returned (PyList [PyStr (Text.lit "de"); PyStr (Text.lit "fr");
                              PyStr (Text.lit "tr")])) as Hret by (by vm_compute).
  split; [exact Hret|].
  exact (fan_out_results_permuted Sample.rt Sample.hello (PyList targets) PyNone PyNone
           PyNone Edge.echo targets _ Hshort eq_refl Hret).
Defined.

Lemma empty_target_list_returns_empty_witness :
  Text.len Sample.hello ≤ 5000
  ∧ EasyGoogleTranslate.target_language (self Edge.no_targets) = PyList []
  ∧ translate Sample.rt Sample.hello (PyList []) PyNone PyNone PyNone Edge.no_targets
    = (Returned (PyList []), Edge.no_targets).
Proof.
  assert (Text.len Sample.hello ≤ 5000) as Hshort by (by vm_compute).
  split_and!; [exact Hshort | reflexivity |].
  exact (empty_target_list_returns_empty Sample.rt Sample.hello (PyList []) PyNone PyNone
           PyNone Edge.no_targets Hshort eq_refl eq_refl).
Defined.

Lemma translate_file_too_long_witness :
  fs Edge.long_file !! Sample.text_txt = Some Sample.long_text
  ∧ 5000 < Text.len (Utf8.universal_newlines Sample.long_text)
  ∧ translate_file Sample.rt Sample.text_txt PyNone PyNone PyNone PyNone Edge.long_file
    = (Exited 1,
       Proc.log (EvPrint (too_long (Utf8.universal_newlines Sample.long_text)))
         (Proc.log (EvRead Sample.text_txt) Edge.long_file)).
Proof.
  assert (fs Edge.long_file !! Sample.text_txt = Some Sample.long_text) as Hfs
    by (by vm_compute).
  assert (Utf8.decode Sample.long_text = Some Sample.long_text) as Hdec
    by (by vm_compute).
  assert (5000 < Text.len (Utf8.universal_newlines Sample.long_text)) as Hlong
    by (by vm_compute).
  split_and!; [exact Hfs | exact Hlong |].
  exact (translate_file_too_long Sample.rt Sample.text_txt PyNone PyNone PyNone PyNone
           Edge.long_file Sample.long_text Sample.long_text Hfs Hdec Hlong).
Defined.

Lemma translate_file_not_utf8_witness :
  fs Edge.latin1_file !! Sample.text_txt = Some [0xE9]
  ∧ Utf8.decode [0xE9] = None
  ∧ translate_file Sample.rt Sample.text_txt PyNone PyNone PyNone PyNone Edge.latin1_file
    = (Raised (Text.lit "UnicodeDecodeError"),
       Proc.log (EvRead Sample.text_txt) Edge.latin1_file).
Proof.
  assert (fs Edge.latin1_file !! Sample.text_txt = Some [0xE9]) as Hfs
    by (by vm_compute).
  split_and!; [exact Hfs | reflexivity |].
  exact (translate_file_not_utf8 Sample.rt Sample.text_txt PyNone PyNone PyNone PyNone
           Edge.latin1_file [0xE9] Hfs eq_refl).
Defined.

Lemma translate_file_sends_file_text_witness :
  fs Sample.with_file !! Sample.text_txt = Some (Text.lit "Hello")
  ∧ 13 ∉ Sample.hello
  ∧ ∃ enc,
      Utf8.encode (Utf8.universal_newlines Sample.hello) = Some enc
      ∧ Proc.requests_in
          (trace (translate_file Sample.rt Sample.text_txt PyNone PyNone PyNone PyNone
                    Sample.with_file).2)
        = [request_of Sample.rt (PyStr (Text.lit "tr")) (PyStr (Text.lit "auto")) enc
             (PyInt 5) PyNone]
      ∧ enc = Text.lit "Hello".
Proof.
  assert (fs Sample.with_file !! Sample.text_txt = Some (Text.lit "Hello")) as Hfs
    by (by vm_compute).
  assert (13 ∉ Sample.hello) as Hcr
    by (refine (bool_decide_unpack _ _); by vm_compute).
  assert (Text.len (Utf8.universal_newlines Sample.hello) ≤ 5000) as Hshort
    by (by vm_compute).
  split_and!; [exact Hfs | exact Hcr |].
  destruct (translate_file_sends_file_text Sample.rt Sample.text_txt PyNone PyNone PyNone
              PyNone Sample.with_file (Text.lit "Hello") Sample.hello Hfs eq_refl Hshort
              eq_refl) as (enc & Henc & Hreq & Hsame).
  exists enc. split_and!; [exact Henc | exact Hreq | exact (Hsame Hcr)].
Defined.


(** A file with CR LF line ends is sent with LF alone. *)
Example crlf_file_request :
  Proc.requests_in
    (trace (translate_file Sample.rt Sample.text_txt PyNone PyNone PyNone PyNone
              Edge.crlf_file).2)
  = [Request (Text.lit "https://translate.google.com/m?tl=tr&sl=auto&q=Hi%0Athere%0A")
       (PyInt 5) PyNone].
Proof. by vm_compute. Qed.
